(** * bucket-policy.py: the spreadsheet-to-CSV handler and its bucket policy

    A shallow embedding of [src/bucket-policy.py].  Python values that reach
    the code from the outside (the trigger event, the responses of the
    storage and key-management clients, the decoded key policy) are
    dynamically typed, so they are embedded as a small universe [pyval]
    whose operations raise the exception Python raises.  Calls to the
    managed services are threaded through a state-and-error monad that
    records every call made.

    Text is embedded as [string], one character per element; the object
    keys handled here are taken to be ASCII text. *)

From Stdlib Require Import ZArith List Bool Ascii String DecimalString Lia.
From Stdlib Require Import DecimalPos DecimalZ.
From stdpp Require Import base gmap strings.
Import ListNotations.

Set Warnings "-register-all".

Local Open Scope string_scope.
Local Open Scope Z_scope.

(** ** Exceptions and results *)

Inductive exn : Type :=
| KeyError
| IndexError
| TypeError
| AttributeError
| ValueError
| ServiceError (name : string).

Inductive result (A : Type) : Type :=
| Ok (a : A)
| Raise (e : exn).

Arguments Ok {A} a.
Arguments Raise {A} e.

Definition rbind {A B} (r : result A) (f : A -> result B) : result B :=
  match r with
  | Ok a => f a
  | Raise e => Raise e
  end.

Declare Scope result_scope.
Delimit Scope result_scope with result.
Notation "'let?' x ':=' r 'in' k" := (rbind r (fun x => k))
  (at level 10, x pattern, r at level 100, k at level 200) : result_scope.

(** ** Text operations ([str.split], [str.lower], [str.endswith], [in]) *)

Module Str.

(** [s.split(sep)] for a one-character separator: never empty. *)
Fixpoint split (sep : ascii) (s : string) : list string :=
  match s with
  | EmptyString => [EmptyString]
  | String c s' =>
      if Ascii.eqb c sep then EmptyString :: split sep s'
      else match split sep s' with
           | [] => [String c EmptyString]
           | h :: t => String c h :: t
           end
  end.

Definition lower_char (c : ascii) : ascii :=
  let n := nat_of_ascii c in
  if (Nat.leb 65 n && Nat.leb n 90)%bool then ascii_of_nat (n + 32) else c.

Fixpoint lower (s : string) : string :=
  match s with
  | EmptyString => EmptyString
  | String c s' => String (lower_char c) (lower s')
  end.

Fixpoint startswith (p s : string) : bool :=
  match p, s with
  | EmptyString, _ => true
  | String a p', String b s' => Ascii.eqb a b && startswith p' s'
  | String _ _, EmptyString => false
  end.

(** [needle in s] *)
Fixpoint contains (needle s : string) : bool :=
  startswith needle s ||
  match s with
  | EmptyString => false
  | String _ s' => contains needle s'
  end.

Fixpoint rev_acc (s acc : string) : string :=
  match s with
  | EmptyString => acc
  | String c s' => rev_acc s' (String c acc)
  end.

Definition rev (s : string) : string := rev_acc s EmptyString.

Definition endswith (s suffix : string) : bool :=
  startswith (rev suffix) (rev s).

Definition is_digit (c : ascii) : bool :=
  let n := nat_of_ascii c in (Nat.leb 48 n && Nat.leb n 57)%bool.

Definition digit_val (c : ascii) : Z := Z.of_nat (nat_of_ascii c) - 48.

(** [str(n)] for an integer. *)
Definition of_int (n : Z) : string := NilZero.string_of_int (Z.to_int n).

(** [f"{n:02d}"] : decimal, padded with zeros on the left to width 2. *)
Definition format_02d (n : Z) : string :=
  let s := of_int n in
  if Nat.ltb (String.length s) 2 then "0" +:+ s else s.

End Str.

Arguments Str.endswith : simpl never.
Arguments Str.contains : simpl never.
Arguments Str.lower : simpl never.

(** ** [datetime.strptime(date_str, "%Y%m%d")]

    The format compiles to the pattern
    [(\d\d\d\d)(1[0-2]|0[1-9]|[1-9])(3[0-1]|[1-2]\d|0[1-9]|[1-9]| [1-9])],
    matched at the start of the text with backtracking in the order of the
    alternatives; text left over after the first match, and a matched triple
    that is no calendar date, raise [ValueError]. *)

Module Strptime.

Definition between (lo hi : nat) (c : ascii) : bool :=
  let n := nat_of_ascii c in (Nat.leb lo n && Nat.leb n hi)%bool.

Definition is0 := between 48 48.
Definition is1 := between 49 49.
Definition is3 := between 51 51.
Definition in_0_1 := between 48 49.
Definition in_0_2 := between 48 50.
Definition in_1_2 := between 49 50.
Definition in_1_9 := between 49 57.
Definition is_space := between 32 32.

Definition two (a b : ascii) : Z := 10 * Str.digit_val a + Str.digit_val b.

(** [(\d\d\d\d)] *)
Definition year_match (s : string) : option (Z * string) :=
  match s with
  | String a (String b (String c (String d rest))) =>
      if (Str.is_digit a && Str.is_digit b && Str.is_digit c && Str.is_digit d)%bool
      then Some (1000 * Str.digit_val a + 100 * Str.digit_val b
                 + 10 * Str.digit_val c + Str.digit_val d, rest)
      else None
  | _ => None
  end.

(** The matches of [(1[0-2]|0[1-9]|[1-9])] at the start of [s], in the
    order in which backtracking tries them. *)
Definition month_alts (s : string) : list (Z * string) :=
  (match s with
   | String a (String b rest) =>
       (if (is1 a && in_0_2 b)%bool then [(two a b, rest)] else [])
       ++ (if (is0 a && in_1_9 b)%bool then [(two a b, rest)] else [])
   | _ => []
   end)
  ++ (match s with
      | String a rest => if in_1_9 a then [(Str.digit_val a, rest)] else []
      | _ => []
      end).

(** The matches of [(3[0-1]|[1-2]\d|0[1-9]|[1-9]| [1-9])]. *)
Definition day_alts (s : string) : list (Z * string) :=
  (match s with
   | String a (String b rest) =>
       (if (is3 a && in_0_1 b)%bool then [(two a b, rest)] else [])
       ++ (if (in_1_2 a && Str.is_digit b)%bool then [(two a b, rest)] else [])
       ++ (if (is0 a && in_1_9 b)%bool then [(two a b, rest)] else [])
   | _ => []
   end)
  ++ (match s with
      | String a rest => if in_1_9 a then [(Str.digit_val a, rest)] else []
      | _ => []
      end)
  ++ (match s with
      | String a (String b rest) =>
          if (is_space a && in_1_9 b)%bool then [(Str.digit_val b, rest)] else []
      | _ => []
      end).

Definition is_leap (y : Z) : bool :=
  ((y mod 4 =? 0) && (negb (y mod 100 =? 0) || (y mod 400 =? 0)))%bool.

Definition days_in_month (y m : Z) : Z :=
  if m =? 2 then (if is_leap y then 29 else 28)
  else if ((m =? 4) || (m =? 6) || (m =? 9) || (m =? 11))%bool then 30
  else 31.

(** The [datetime] constructor: years 1..9999, a day of that month. *)
Definition valid_date (y m d : Z) : bool :=
  ((1 <=? y) && (y <=? 9999) && (1 <=? m) && (m <=? 12)
   && (1 <=? d) && (d <=? days_in_month y m))%bool.

Record date := mk_date { year : Z; month : Z; day : Z }.

(** First match of the whole pattern, with what it leaves unread. *)
Definition first_match (s : string) : option (Z * Z * Z * string) :=
  match year_match s with
  | None => None
  | Some (y, s1) =>
      hd_error
        (flat_map (fun '(m, s2) =>
                     List.map (fun '(d, s3) => (y, m, d, s3)) (day_alts s2))
                  (month_alts s1))
  end.

Definition strptime_Ymd (s : string) : result date :=
  match first_match s with
  | None => Raise ValueError
  | Some (y, m, d, rest) =>
      match rest with
      | EmptyString =>
          if valid_date y m d then Ok (mk_date y m d) else Raise ValueError
      | String _ _ => Raise ValueError
      end
  end.

End Strptime.

(** ** Partition derivation (lines 136-149 and 167 of the handler) *)

Definition file_name_of (source_key : string) : string :=
  List.last (Str.split "/" source_key) EmptyString.

Definition file_prefix_of (file_name : string) : string :=
  List.hd EmptyString (Str.split "." file_name).

Definition file_extension_of (file_name : string) : string :=
  List.last (Str.split "." file_name) EmptyString.

(** [file_name.split('_')[1]] followed by [strptime]. *)
Definition parse_date (file_name : string) : result Strptime.date :=
  match List.nth_error (Str.split "_" file_name) 1 with
  | None => Raise IndexError
  | Some date_str => Strptime.strptime_Ymd date_str
  end.

Definition target_key_of (year month day : Z) (file_prefix : string) : string :=
  "year=" +:+ Str.of_int year +:+ "/month=" +:+ Str.format_02d month
  +:+ "/day=" +:+ Str.format_02d day +:+ "/" +:+ file_prefix +:+ ".csv".

(** ** Python values

    The values that arrive from outside the program: the trigger event,
    the responses of the service clients and the decoded key policy.  A
    dictionary keeps its entries in insertion order; [lookup] returns the
    first entry of a key. *)

Inductive pyval : Type :=
| PNone
| PBool (b : bool)
| PInt (n : Z)
| PStr (s : string)
| PList (l : list pyval)
| PDict (kvs : list (string * pyval)).

Module Py.

Fixpoint lookup (k : string) (kvs : list (string * pyval)) : option pyval :=
  match kvs with
  | [] => None
  | (k', v) :: rest => if String.eqb k k' then Some v else lookup k rest
  end.

Definition is_str (v : pyval) : bool :=
  match v with PStr _ => true | _ => false end.

(** [v == s] for a text literal [s]. *)
Definition eq_str (v : pyval) (s : string) : bool :=
  match v with PStr t => String.eqb t s | _ => false end.

Fixpoint chars (s : string) : list pyval :=
  match s with
  | EmptyString => []
  | String c s' => PStr (String c EmptyString) :: chars s'
  end.

(** [k in v] for a text literal [k]: key membership in a dictionary,
    element membership in a list, substring test in a text. *)
Definition contains (k : string) (v : pyval) : result bool :=
  match v with
  | PDict kvs => Ok (match lookup k kvs with Some _ => true | None => false end)
  | PList l => Ok (existsb (fun x => eq_str x k) l)
  | PStr s => Ok (Str.contains k s)
  | PNone | PBool _ | PInt _ => Raise TypeError
  end.

(** [v[k]] for a text literal [k]. *)
Definition getitem (v : pyval) (k : string) : result pyval :=
  match v with
  | PDict kvs =>
      match lookup k kvs with Some x => Ok x | None => Raise KeyError end
  | _ => Raise TypeError
  end.

(** [v[0]]; the dictionaries here have text keys only. *)
Definition getitem0 (v : pyval) : result pyval :=
  match v with
  | PList l => match l with x :: _ => Ok x | [] => Raise IndexError end
  | PStr s =>
      match s with
      | String c _ => Ok (PStr (String c EmptyString))
      | EmptyString => Raise IndexError
      end
  | PDict _ => Raise KeyError
  | PNone | PBool _ | PInt _ => Raise TypeError
  end.

(** [v.get(k)] *)
Definition get (v : pyval) (k : string) : result pyval :=
  match v with
  | PDict kvs =>
      Ok (match lookup k kvs with Some x => x | None => PNone end)
  | _ => Raise AttributeError
  end.

(** The elements a [for] loop over [v] visits. *)
Definition iter (v : pyval) : result (list pyval) :=
  match v with
  | PList l => Ok l
  | PDict kvs => Ok (List.map (fun kv => PStr (fst kv)) kvs)
  | PStr s => Ok (chars s)
  | PNone | PBool _ | PInt _ => Raise TypeError
  end.

End Py.

(** ** Library functions the program calls

    [json.loads], [json.dumps], [pd.read_excel] and [DataFrame.to_csv]
    are functions of the libraries the program imports; the program is
    embedded over any implementation of them. *)

Inductive scalar : Type :=
| SNum (n : Z)
| SText (s : string)
| SBool (b : bool).

(** A cell of a frame; [None] is the missing value ([NaN]). *)
Definition cell : Type := option scalar.

(** A frame: its column labels and its rows of cells. *)
Record DataFrame : Type := mk_frame {
  columns : list cell;
  values : list (list cell)
}.

Record Library : Type := mk_library {
  json_loads : string -> result pyval;
  json_dumps : pyval -> string;
  read_excel : string -> result DataFrame;
  to_csv : DataFrame -> string
}.

(** ** [get_aws_account_arns_from_key_metadata] *)

(** The inner loop [for arn in principal['AWS']]; [arn.endswith] raises
    [AttributeError] on an element that is no text. *)
Fixpoint add_arns (arns : list pyval) (account_arns : gset string)
  : result (gset string) :=
  match arns with
  | [] => Ok account_arns
  | PStr arn :: rest =>
      add_arns rest (if Str.endswith arn ":root" then account_arns
                     else {[ arn ]} ∪ account_arns)
  | _ :: _ => Raise AttributeError
  end.

(** The body of the outer loop, for one statement. *)
Definition add_statement (statement : pyval) (account_arns : gset string)
  : result (gset string) :=
  (let? has_principal := Py.contains "Principal" statement in
   if has_principal then
     let? principal := Py.getitem statement "Principal" in
     let? has_aws := Py.contains "AWS" principal in
     if has_aws then
       let? aws := Py.getitem principal "AWS" in
       match aws with
       | PStr a =>
           if Str.endswith a ":root" then Ok account_arns
           else Ok ({[ a ]} ∪ account_arns)
       | PList arns => add_arns arns account_arns
       | _ => Ok account_arns
       end
     else Ok account_arns
   else Ok account_arns)%result.

Fixpoint add_statements (statements : list pyval) (account_arns : gset string)
  : result (gset string) :=
  match statements with
  | [] => Ok account_arns
  | statement :: rest =>
      (let? account_arns' := add_statement statement account_arns in
       add_statements rest account_arns')%result
  end.

(** The loop over an already decoded policy document. *)
Definition account_arns_of_policy (key_policy : pyval) : result (gset string) :=
  (let? statement_field := Py.getitem key_policy "Statement" in
   let? statements := Py.iter statement_field in
   add_statements statements ∅)%result.

(** [list(account_arns)] lists the set in an order Python leaves open;
    [elements] lists it in some order, and nothing below depends on which. *)
Definition get_aws_account_arns_from_key_metadata
  (lib : Library) (key_metadata : pyval) : result (list string) :=
  (let? policy_field := Py.getitem key_metadata "Policy" in
   match policy_field with
   | PStr policy_text =>
       let? key_policy := json_loads lib policy_text in
       let? account_arns := account_arns_of_policy key_policy in
       Ok (elements account_arns)
   | _ => Raise TypeError
   end)%result.

(** ** The policy document of [attach_bucket_policy] *)

Definition bucket_arn (bucket_name : string) : string :=
  "arn:aws:s3:::" +:+ bucket_name.

Definition object_arn (bucket_name : string) : string :=
  "arn:aws:s3:::" +:+ bucket_name +:+ "/*".

Definition arn_list (account_arns : list string) : pyval :=
  PList (List.map PStr account_arns).

(** The first document the function builds; the second assignment
    replaces it before it is used. *)
Definition bucket_policy_first (bucket_name : string) (account_arns : list string)
  : pyval :=
  PDict [("Version", PStr "2012-10-17");
         ("Statement", PList [
            PDict [("Effect", PStr "Deny");
                   ("NotPrincipal", PDict [("AWS", arn_list account_arns)]);
                   ("Action", PStr "s3:GetObject");
                   ("Resource", PStr (object_arn bucket_name))]])].

Definition bucket_policy_doc (bucket_name : string) (account_arns : list string)
  : pyval :=
  let bucket_policy := bucket_policy_first bucket_name account_arns in
  let bucket_policy :=
    PDict [("Version", PStr "2012-10-17");
           ("Statement", PList [
              PDict [("Effect", PStr "Allow");
                     ("Principal", PDict [("AWS", arn_list account_arns)]);
                     ("Action", PStr "s3:*");
                     ("Resource", PList [PStr (bucket_arn bucket_name);
                                         PStr (object_arn bucket_name)])];
              PDict [("Effect", PStr "Deny");
                     ("NotPrincipal", PDict [("AWS", arn_list account_arns)]);
                     ("Action", PStr "s3:GetObject");
                     ("Resource", PList [PStr (bucket_arn bucket_name);
                                         PStr (object_arn bucket_name)])]])] in
  bucket_policy.

(** ** The cleaning step (lines 158-160 of the handler) *)

Module Frame.

Definition notna (c : cell) : bool :=
  match c with Some _ => true | None => false end.

(** [dropna(how='all')]: the rows with at least one value. *)
Definition dropna_rows (df : DataFrame) : DataFrame :=
  mk_frame (columns df) (List.filter (existsb notna) (values df)).

(** The elements of [l] at the positions where [mask] holds. *)
Fixpoint select {A} (mask : list bool) (l : list A) : list A :=
  match mask, l with
  | b :: mask', x :: l' =>
      if b then x :: select mask' l' else select mask' l'
  | _, _ => []
  end.

(** For every column position, whether some row has a value there. *)
Definition column_mask (df : DataFrame) : list bool :=
  List.map (fun j => existsb (fun row => notna (List.nth j row None)) (values df))
           (List.seq 0 (length (columns df))).

(** [dropna(axis=1, how='all')]: the columns with at least one value. *)
Definition dropna_columns (df : DataFrame) : DataFrame :=
  let mask := column_mask df in
  mk_frame (select mask (columns df)) (List.map (select mask) (values df)).

(** [df.iloc[0]]: the first row, [IndexError] on a frame without rows. *)
Definition iloc0 (df : DataFrame) : result (list cell) :=
  match values df with
  | row :: _ => Ok row
  | [] => Raise IndexError
  end.

(** Lines 158-160: drop the empty rows, then the empty columns, take the
    first row as the labels and the rows after it as the data. *)
Definition clean (excel_df : DataFrame) : result DataFrame :=
  let excel_df := dropna_columns (dropna_rows excel_df) in
  (let? headers := iloc0 excel_df in
   Ok (mk_frame headers (List.tl (values excel_df))))%result.

End Frame.

(** ** The managed services

    The storage, key-management and catalog clients are collaborators: each
    operation takes the state of the outside world to a new state and either
    a response or the exception the client raises.  [get_object] answers
    with the bytes read from the body of its response. *)

Inductive call : Type :=
| GetObject (bucket : pyval) (key : string)
| PutObject (bucket key body : string)
| GetBucketEncryption (bucket : string)
| PutBucketPolicy (bucket policy : string)
| GetKeyPolicy (key_id : pyval) (policy_name : string)
| StartCrawler (name : string).

Record Services (W : Type) : Type := mk_services {
  s3_get_object : pyval -> string -> W -> W * result string;
  s3_put_object : string -> string -> string -> W -> W * result unit;
  s3_get_bucket_encryption : string -> W -> W * result pyval;
  s3_put_bucket_policy : string -> string -> W -> W * result unit;
  kms_get_key_policy : pyval -> string -> W -> W * result pyval;
  glue_start_crawler : string -> W -> W * result unit
}.

Arguments s3_get_object {W}.
Arguments s3_put_object {W}.
Arguments s3_get_bucket_encryption {W}.
Arguments s3_put_bucket_policy {W}.
Arguments kms_get_key_policy {W}.
Arguments glue_start_crawler {W}.

(** A computation over the world and the log of the calls made so far. *)
Definition M (W A : Type) : Type := W * list call -> (W * list call) * result A.

Definition ret {W A} (a : A) : M W A := fun st => (st, Ok a).

Definition bind {W A B} (m : M W A) (f : A -> M W B) : M W B :=
  fun st =>
    match m st with
    | (st', Ok a) => f a st'
    | (st', Raise e) => (st', Raise e)
    end.

Definition lift {W A} (r : result A) : M W A := fun st => (st, r).

(** One call of a client operation: logged, then answered by the world. *)
Definition invoke {W A} (c : call) (op : W -> W * result A) : M W A :=
  fun '(w, log) => let '(w', r) := op w in ((w', (log ++ [c])%list), r).

Declare Scope m_scope.
Delimit Scope m_scope with M.
Notation "x <- m ;; k" := (bind m (fun x => k))
  (at level 100, m at next level, right associativity) : m_scope.
Notation "m ;; k" := (bind m (fun _ => k))
  (at level 100, right associativity) : m_scope.

Section Program.

Context {W : Type}.
Variable lib : Library.
Variable svc : Services W.

(** [attach_bucket_policy] *)
Definition attach_bucket_policy (bucket_name : string) (account_arns : list string)
  : M W unit :=
  let bucket_policy := bucket_policy_doc bucket_name account_arns in
  let bucket_policy_str := json_dumps lib bucket_policy in
  invoke (PutBucketPolicy bucket_name bucket_policy_str)
         (s3_put_bucket_policy svc bucket_name bucket_policy_str).

(** [get_kms_key_metadata] *)
Definition get_kms_key_metadata (key_arn : pyval) : M W pyval :=
  invoke (GetKeyPolicy key_arn "default")
         (kms_get_key_policy svc key_arn "default").

(** The loop over the rules of the encryption configuration; [None] stands
    for the loop running to its end without a [return]. *)
Fixpoint first_kms_rule (rules : list pyval) : result (option pyval) :=
  match rules with
  | [] => Ok None
  | rule :: rest =>
      (let? has_default := Py.contains "ApplyServerSideEncryptionByDefault" rule in
       if has_default then
         let? by_default := Py.getitem rule "ApplyServerSideEncryptionByDefault" in
         let? sse_algorithm := Py.get by_default "SSEAlgorithm" in
         if Py.eq_str sse_algorithm "aws:kms" then
           let? key_id := Py.get by_default "KMSMasterKeyID" in
           Ok (Some key_id)
         else first_kms_rule rest
       else first_kms_rule rest)%result
  end.

(** What [get_kms_master_key] computes from the response. *)
Definition kms_master_key_of (response : pyval) : result pyval :=
  (let? has_config := Py.contains "ServerSideEncryptionConfiguration" response in
   if has_config then
     let? encryption_config := Py.getitem response "ServerSideEncryptionConfiguration" in
     let? rules_field := Py.getitem encryption_config "Rules" in
     let? rules := Py.iter rules_field in
     let? found := first_kms_rule rules in
     match found with
     | Some key_id => Ok key_id
     | None => Ok PNone
     end
   else Ok PNone)%result.

(** [get_kms_master_key] *)
Definition get_kms_master_key (bucket_name : string) : M W pyval :=
  (response <- invoke (GetBucketEncryption bucket_name)
                      (s3_get_bucket_encryption svc bucket_name) ;;
   lift (kms_master_key_of response))%M.

(** [source_key.split(...)] needs a text. *)
Definition as_text (v : pyval) : result string :=
  match v with
  | PStr s => Ok s
  | _ => Raise AttributeError
  end.

(** [event['Records'][0]['s3'][part][field]] *)
Definition event_field (event : pyval) (part field : string) : result pyval :=
  (let? records := Py.getitem event "Records" in
   let? record := Py.getitem0 records in
   let? s3 := Py.getitem record "s3" in
   let? p := Py.getitem s3 part in
   Py.getitem p field)%result.

Definition target_bucket : string := "input-data-bucket-eu-west-2".

Definition response_200 (file_name target_key : string) : pyval :=
  PDict [("statusCode", PInt 200);
         ("body", PStr ("File " +:+ file_name +:+ " converted and stored as "
                        +:+ target_key +:+ " in " +:+ target_bucket))].

Definition response_400 (file_name : string) : pyval :=
  PDict [("statusCode", PInt 400);
         ("body", PStr ("Error: " +:+ file_name +:+ " is not an Excel file"))].

(** [lambda_handler]; what it prints is not part of the embedding. *)
Definition lambda_handler (event : pyval) : M W pyval :=
  (source_bucket <- lift (event_field event "bucket" "name") ;;
   source_key_value <- lift (event_field event "object" "key") ;;
   source_key <- lift (as_text source_key_value) ;;
   let file_name := file_name_of source_key in
   let file_prefix := file_prefix_of file_name in
   let file_extension := file_extension_of file_name in
   if String.eqb (Str.lower file_extension) "xlsx" then
     date_obj <- lift (parse_date file_name) ;;
     let year := Strptime.year date_obj in
     let month := Strptime.month date_obj in
     let day := Strptime.day date_obj in
     excel_data <- invoke (GetObject source_bucket source_key)
                          (s3_get_object svc source_bucket source_key) ;;
     excel_df <- lift (read_excel lib excel_data) ;;
     excel_df <- lift (Frame.clean excel_df) ;;
     let csv_data := to_csv lib excel_df in
     let target_key := target_key_of year month day file_prefix in
     invoke (PutObject target_bucket target_key csv_data)
            (s3_put_object svc target_bucket target_key csv_data) ;;
     key_arn <- get_kms_master_key target_bucket ;;
     key_metadata <- get_kms_key_metadata key_arn ;;
     aws_account_arns <-
       lift (get_aws_account_arns_from_key_metadata lib key_metadata) ;;
     attach_bucket_policy target_bucket aws_account_arns ;;
     invoke (StartCrawler "s3_input_crawler")
            (glue_start_crawler svc "s3_input_crawler") ;;
     ret (response_200 file_name target_key)
   else
     ret (response_400 file_name))%M.

End Program.

(** ** Concrete inputs

    A trigger event, a decoded key policy, a sheet and a world whose
    clients always answer, used to run the program on examples. *)

Definition demo_event (key : string) : pyval :=
  PDict [("Records", PList [
    PDict [("s3", PDict [("bucket", PDict [("name", PStr "uploads")]);
                         ("object", PDict [("key", PStr key)])])]])].

Definition demo_policy : pyval :=
  PDict [("Version", PStr "2012-10-17");
         ("Statement", PList [
            PDict [("Effect", PStr "Allow");
                   ("Principal", PDict [("AWS", PList [
                      PStr "arn:aws:iam::111:root";
                      PStr "arn:aws:iam::222:user/x";
                      PStr "arn:aws:iam::222:user/x"])]);
                   ("Action", PStr "kms:*")];
            PDict [("Effect", PStr "Allow"); ("Principal", PStr "*")];
            PDict [("Effect", PStr "Allow");
                   ("Principal", PDict [("AWS", PStr "arn:aws:iam::333:role/r")])];
            PDict [("Effect", PStr "Allow");
                   ("Principal", PDict [("Service", PStr "s3.amazonaws.com")])];
            PDict [("Effect", PStr "Deny"); ("Action", PStr "kms:Delete*")]])].

Definition demo_metadata : pyval := PDict [("Policy", PStr "policy-text")].

(** Two blank rows and a blank column around a block with a label row. *)
Definition demo_frame : DataFrame :=
  mk_frame [Some (SNum 0); Some (SNum 1); Some (SNum 2)]
           [[None; None; None];
            [None; Some (SText "name"); Some (SText "qty")];
            [None; None; None];
            [None; Some (SText "bolt"); Some (SNum 4)]].

(** A sheet without a single value. *)
Definition blank_frame : DataFrame :=
  mk_frame [Some (SNum 0); Some (SNum 1)] [[None; None]; [None; None]].

Definition demo_library : Library :=
  mk_library (fun _ => Ok demo_policy) (fun _ => "policy-json")
             (fun _ => Ok demo_frame) (fun _ => "csv").

Definition encryption_response (by_default : list (string * pyval)) : pyval :=
  PDict [("ServerSideEncryptionConfiguration",
          PDict [("Rules", PList [
            PDict [("ApplyServerSideEncryptionByDefault", PDict by_default)]])])].

Definition kms_encryption : pyval :=
  encryption_response [("SSEAlgorithm", PStr "aws:kms");
                       ("KMSMasterKeyID", PStr "arn:aws:kms:eu-west-2:111:key/k")].

Definition aes_encryption : pyval :=
  encryption_response [("SSEAlgorithm", PStr "AES256")].

(** A world without state.  The key-management client answers for a key
    identifier that is a text and rejects any other value, as the real
    client validates its parameters. *)
Definition demo_services (encryption : pyval) (crawler : result unit)
  : Services unit :=
  mk_services unit
    (fun _ _ w => (w, Ok "xlsx-bytes"))
    (fun _ _ _ w => (w, Ok tt))
    (fun _ w => (w, Ok encryption))
    (fun _ _ w => (w, Ok tt))
    (fun key_id _ w =>
       (w, match key_id with
           | PStr _ => Ok demo_metadata
           | _ => Raise (ServiceError "ParamValidationError")
           end))
    (fun _ w => (w, crawler)).

(** The table the cleaning step makes of [demo_frame]. *)
Definition demo_table : DataFrame :=
  mk_frame [Some (SText "name"); Some (SText "qty")]
           [[Some (SText "bolt"); Some (SNum 4)]].

(** The world whose destination bucket is encrypted with a key of the
    key-management service. *)
Definition kms_services : Services unit := demo_services kms_encryption (Ok tt).

(** The world whose destination bucket has no such key. *)
Definition aes_services : Services unit := demo_services aes_encryption (Ok tt).

(** The world in which the crawler cannot be started. *)
Definition crawler_down_services : Services unit :=
  demo_services kms_encryption (Raise (ServiceError "CrawlerRunningException")).

(** A sheet without a blank row or column; one label is missing. *)
Definition tidy_frame : DataFrame :=
  mk_frame [Some (SNum 0); Some (SNum 1)]
           [[Some (SText "name"); None];
            [Some (SText "bolt"); Some (SNum 4)]].

(** A decoded key policy whose second statement lists an account number
    that is no text. *)
Definition numbered_policy : pyval :=
  PDict [("Version", PStr "2012-10-17");
         ("Statement", PList [
            PDict [("Effect", PStr "Allow"); ("Principal", PStr "*")];
            PDict [("Effect", PStr "Allow");
                   ("Principal", PDict [("AWS", PList [
                      PStr "arn:aws:iam::222:user/x"; PInt 111122223333])])];
            PDict [("Effect", PStr "Deny")]])].

Definition numbered_library : Library :=
  mk_library (fun _ => Ok numbered_policy) (fun _ => "policy-json")
             (fun _ => Ok demo_frame) (fun _ => "csv").

(** The statements of [demo_policy] in the opposite order. *)
Definition reversed_policy : pyval :=
  PDict [("Version", PStr "2012-10-17");
         ("Statement", PList (List.rev (
            match Py.lookup "Statement"
                    (match demo_policy with PDict kvs => kvs | _ => [] end) with
            | Some (PList statements) => statements
            | _ => []
            end)))].

Definition reversed_metadata : pyval := PDict [("Policy", PStr "reversed-text")].

(** A decoder that knows the two policy texts. *)
Definition two_policy_library : Library :=
  mk_library (fun text => if String.eqb text "reversed-text"
                          then Ok reversed_policy else Ok demo_policy)
             (fun _ => "policy-json") (fun _ => Ok demo_frame) (fun _ => "csv").

(** Rules in which the first rule of the key-management service names no
    key and a later one does. *)
Definition mixed_rules : list pyval :=
  [PDict [("BucketKeyEnabled", PBool true)];
   PDict [("ApplyServerSideEncryptionByDefault",
           PDict [("SSEAlgorithm", PStr "AES256")])];
   PDict [("ApplyServerSideEncryptionByDefault",
           PDict [("SSEAlgorithm", PStr "aws:kms")])];
   PDict [("ApplyServerSideEncryptionByDefault",
           PDict [("SSEAlgorithm", PStr "aws:kms");
                  ("KMSMasterKeyID", PStr "arn:aws:kms:eu-west-2:111:key/k")])]].

Definition mixed_encryption : pyval :=
  PDict [("ServerSideEncryptionConfiguration",
          PDict [("Rules", PList mixed_rules)])].

(** The world in which the bucket policy cannot be written. *)
Definition policy_denied_services : Services unit :=
  mk_services unit
    (fun _ _ w => (w, Ok "xlsx-bytes"))
    (fun _ _ _ w => (w, Ok tt))
    (fun _ w => (w, Ok kms_encryption))
    (fun _ _ w => (w, Raise (ServiceError "AccessDenied")))
    (fun _ _ w => (w, Ok demo_metadata))
    (fun _ w => (w, Ok tt)).

(** A decoded key policy whose statement has a null Principal. *)
Definition null_principal_policy : pyval :=
  PDict [("Version", PStr "2012-10-17");
         ("Statement", PList [
            PDict [("Effect", PStr "Allow"); ("Principal", PNone);
                   ("Action", PStr "kms:*")]])].

Definition null_principal_library : Library :=
  mk_library (fun _ => Ok null_principal_policy) (fun _ => "policy-json")
             (fun _ => Ok demo_frame) (fun _ => "csv").

(** * Notions used in the statements *)

(** The [AWS] entry under [field] of a statement. *)
Definition aws_of (statement : pyval) (field : string) : result pyval :=
  (let? p := Py.getitem statement field in Py.getitem p "AWS")%result.

(** [s] is two decimal digits that read [n]. *)
Definition two_digits (s : string) (n : Z) : bool :=
  match s with
  | String a (String b EmptyString) =>
      Str.is_digit a && Str.is_digit b
      && (n =? 10 * Str.digit_val a + Str.digit_val b)
  | _ => false
  end.

(** Every row of a frame has one cell per column. *)
Definition rectangular (df : DataFrame) : Prop :=
  Forall (fun row => length row = length (columns df)) (values df).

Definition has_value (row : list cell) : Prop := existsb Frame.notna row = true.

Definition count_true (mask : list bool) : nat :=
  length (List.filter (fun b => b) mask).

(** The identifier [a] occurs in the Principal AWS field of [statement],
    as a single text or as an element of a list. *)
Definition named_by (statement : pyval) (a : string) : Prop :=
  exists principal aws,
    Py.getitem statement "Principal" = Ok principal
    /\ Py.getitem principal "AWS" = Ok aws
    /\ (aws = PStr a \/ exists l, aws = PList l /\ In (PStr a) l).

(** The identifiers the extraction is to return. *)
Definition qualifies (statements : list pyval) (a : string) : Prop :=
  (exists statement, In statement statements /\ named_by statement a)
  /\ Str.endswith a ":root" = false.

(** The shape of a principal specification: a dictionary whose AWS entry,
    when it is a list, is a list of texts; or a text such as the wildcard,
    in which AWS does not occur. *)
Definition shaped_principal (principal : pyval) : bool :=
  match principal with
  | PDict kvs =>
      match Py.lookup "AWS" kvs with
      | Some (PList l) => forallb Py.is_str l
      | _ => true
      end
  | PStr s => negb (Str.contains "AWS" s)
  | _ => false
  end.

Definition shaped_statement (statement : pyval) : bool :=
  match statement with
  | PDict kvs =>
      match Py.lookup "Principal" kvs with
      | Some principal => shaped_principal principal
      | None => true
      end
  | _ => false
  end.

Definition statements_of (key_policy : pyval) : list pyval :=
  match Py.getitem key_policy "Statement" with
  | Ok (PList statements) => statements
  | _ => []
  end.

(** A key policy document: a dictionary with a list of statements, each a
    dictionary with or without a principal specification. *)
Definition shaped_policy (key_policy : pyval) : bool :=
  match Py.getitem key_policy "Statement" with
  | Ok (PList statements) => forallb shaped_statement statements
  | _ => false
  end.

(** *** Date tokens, as the specification words them *)

Module Token.

Import Strptime.

(** An 8-digit token [YYYYMMDD] that is a calendar date. *)
Definition is_yyyymmdd (s : string) : bool :=
  match s with
  | String a (String b (String c (String d
      (String e (String f (String g (String h EmptyString))))))) =>
      forallb Str.is_digit [a; b; c; d; e; f; g; h]
      && valid_date (1000 * Str.digit_val a + 100 * Str.digit_val b
                     + 10 * Str.digit_val c + Str.digit_val d)
                    (two e f) (two g h)
  | _ => false
  end.

(** A month written 10..12, 01..09 or 1..9. *)
Definition month_text (t : string) : option Z :=
  match t with
  | String a EmptyString => if in_1_9 a then Some (Str.digit_val a) else None
  | String a (String b EmptyString) =>
      if (is1 a && in_0_2 b) || (is0 a && in_1_9 b) then Some (two a b) else None
  | _ => None
  end.

(** A day written 01..31 or 1..9, or a space and one of 1..9. *)
Definition day_text (t : string) : option Z :=
  match t with
  | String a EmptyString => if in_1_9 a then Some (Str.digit_val a) else None
  | String a (String b EmptyString) =>
      if (is3 a && in_0_1 b) || (in_1_2 a && Str.is_digit b) || (is0 a && in_1_9 b)
      then Some (two a b)
      else if is_space a && in_1_9 b then Some (Str.digit_val b) else None
  | _ => None
  end.

Fixpoint take (n : nat) (s : string) : string :=
  match n, s with
  | S n', String c s' => String c (take n' s')
  | _, _ => EmptyString
  end.

Fixpoint drop (n : nat) (s : string) : string :=
  match n, s with
  | S n', String _ s' => drop n' s'
  | _, _ => s
  end.

(** The calendar dates a token can be read as: four digits of year, then
    the month in two characters or in one, then the day. *)
Definition readings (s : string) : list date :=
  match year_match s with
  | None => []
  | Some (y, rest) =>
      flat_map (fun n =>
                  match month_text (take n rest), day_text (drop n rest) with
                  | Some m, Some d =>
                      if valid_date y m d then [mk_date y m d] else []
                  | _, _ => []
                  end)
               [2%nat; 1%nat]
  end.

(** What [strptime] makes of the first match. *)
Definition verdict (o : option (Z * Z * Z * string)) : result date :=
  match o with
  | None => Raise ValueError
  | Some (y, m, d, rest) =>
      match rest with
      | EmptyString =>
          if valid_date y m d then Ok (mk_date y m d) else Raise ValueError
      | String _ _ => Raise ValueError
      end
  end.

Definition answer (l : list date) : result date :=
  match l with
  | [] => Raise ValueError
  | d :: _ => Ok d
  end.

Definition reading (y m : Z) (t : string) : list date :=
  match day_text t with
  | Some d => if valid_date y m d then [mk_date y m d] else []
  | None => []
  end.

Definition tag (y m : Z) (p : Z * string) : Z * Z * Z * string :=
  let '(d, s3) := p in (y, m, d, s3).

End Token.

(** A file name from which no partition can be derived: it has no second
    segment between underscores, or that segment has no reading. *)
Definition malformed (file_name : string) : bool :=
  match List.nth_error (Str.split "_" file_name) 1 with
  | None => true
  | Some date_str =>
      match Token.readings date_str with
      | [] => true
      | _ :: _ => false
      end
  end.

(** *** Runs of the handler *)

Section RunNotions.

Context {W : Type}.
Variable lib : Library.
Variable svc : Services W.

Definition target_key_for (source_key : string) (d : Strptime.date) : string :=
  target_key_of (Strptime.year d) (Strptime.month d) (Strptime.day d)
                (file_prefix_of (file_name_of source_key)).

(** The upload is accepted, converted and stored: from world [w], every
    step up to and including [put_object] succeeds, leaving world [w2]. *)
Definition upload_succeeds (event : pyval) (w : W) (source_bucket : pyval)
  (source_key : string) (d : Strptime.date) (table : DataFrame) (w2 : W) : Prop :=
  event_field event "bucket" "name" = Ok source_bucket
  /\ event_field event "object" "key" = Ok (PStr source_key)
  /\ Str.lower (file_extension_of (file_name_of source_key)) = "xlsx"
  /\ parse_date (file_name_of source_key) = Ok d
  /\ exists w1 excel_data excel_df,
      s3_get_object svc source_bucket source_key w = (w1, Ok excel_data)
      /\ read_excel lib excel_data = Ok excel_df
      /\ Frame.clean excel_df = Ok table
      /\ s3_put_object svc target_bucket (target_key_for source_key d)
                       (to_csv lib table) w1 = (w2, Ok tt).

Definition upload_calls (source_bucket : pyval) (source_key : string)
  (d : Strptime.date) (table : DataFrame) : list call :=
  [GetObject source_bucket source_key;
   PutObject target_bucket (target_key_for source_key d) (to_csv lib table)].

(** The key is resolved to [key_arn], its policy is fetched, the accounts
    are extracted and the bucket policy is applied: from world [w2], every
    one of these steps succeeds, leaving world [w5]. *)
Definition policy_applied (w2 : W) (key_arn : pyval)
  (aws_account_arns : list string) (w5 : W) : Prop :=
  exists w3 response w4 key_metadata,
    s3_get_bucket_encryption svc target_bucket w2 = (w3, Ok response)
    /\ kms_master_key_of response = Ok key_arn
    /\ kms_get_key_policy svc key_arn "default" w3 = (w4, Ok key_metadata)
    /\ get_aws_account_arns_from_key_metadata lib key_metadata = Ok aws_account_arns
    /\ s3_put_bucket_policy svc target_bucket
         (json_dumps lib (bucket_policy_doc target_bucket aws_account_arns)) w4
       = (w5, Ok tt).

Definition policy_calls (key_arn : pyval) (aws_account_arns : list string)
  : list call :=
  [GetBucketEncryption target_bucket;
   GetKeyPolicy key_arn "default";
   PutBucketPolicy target_bucket
     (json_dumps lib (bucket_policy_doc target_bucket aws_account_arns))].

End RunNotions.

(** ** Notions of the further properties *)

(** *** Where a grid holds values *)

(** The number of cells of a row that hold a value. *)
Definition value_count (row : list cell) : nat :=
  length (List.filter Frame.notna row).

(** Which cells of a grid hold a value, row by row. *)
Definition value_pattern (rows : list (list cell)) : list (list bool) :=
  List.map (List.map Frame.notna) rows.

(** Column [j] of a grid holds a value. *)
Definition column_has_value (rows : list (list cell)) (j : nat) : Prop :=
  Exists (fun row => Frame.notna (List.nth j row None) = true) rows.

(** *** The statements the extraction visits *)

(** What the loop [for statement in key_policy['Statement']] runs over. *)
Definition visited_statements (key_policy : pyval) : result (list pyval) :=
  (let? statement_field := Py.getitem key_policy "Statement" in
   Py.iter statement_field)%result.

(** *** Rules of an encryption configuration *)

Definition by_default_of (rule : pyval) : option pyval :=
  match rule with
  | PDict kvs => Py.lookup "ApplyServerSideEncryptionByDefault" kvs
  | _ => None
  end.

(** A rule is a dictionary whose default-encryption entry, when it has
    one, is a dictionary. *)
Definition shaped_rule (rule : pyval) : bool :=
  match rule with
  | PDict kvs =>
      match Py.lookup "ApplyServerSideEncryptionByDefault" kvs with
      | None | Some (PDict _) => true
      | Some _ => false
      end
  | _ => false
  end.

(** The default encryption of the rule uses the key-management service. *)
Definition kms_backed (rule : pyval) : bool :=
  match by_default_of rule with
  | Some (PDict by_default) =>
      match Py.lookup "SSEAlgorithm" by_default with
      | Some algorithm => Py.eq_str algorithm "aws:kms"
      | None => false
      end
  | _ => false
  end.

(** *** The calls of a run *)

Inductive call_kind : Type :=
| KGetObject
| KPutObject
| KGetBucketEncryption
| KGetKeyPolicy
| KPutBucketPolicy
| KStartCrawler.

Definition kind_of (c : call) : call_kind :=
  match c with
  | GetObject _ _ => KGetObject
  | PutObject _ _ _ => KPutObject
  | GetBucketEncryption _ => KGetBucketEncryption
  | GetKeyPolicy _ _ => KGetKeyPolicy
  | PutBucketPolicy _ _ => KPutBucketPolicy
  | StartCrawler _ => KStartCrawler
  end.

(** The order in which the handler calls the services. *)
Definition plan : list call_kind :=
  [KGetObject; KPutObject; KGetBucketEncryption; KGetKeyPolicy;
   KPutBucketPolicy; KStartCrawler].

(** The call names nothing but the fixed destination bucket, the default
    key policy and the fixed crawler; a read of the source names what the
    event names. *)
Definition fixed_target (c : call) : bool :=
  match c with
  | GetObject _ _ => true
  | PutObject bucket _ _ => String.eqb bucket target_bucket
  | GetBucketEncryption bucket => String.eqb bucket target_bucket
  | GetKeyPolicy _ policy_name => String.eqb policy_name "default"
  | PutBucketPolicy bucket _ => String.eqb bucket target_bucket
  | StartCrawler name => String.eqb name "s3_input_crawler"
  end.

(** *** Characters and segments of a text *)

Module Text.

(** The character [c] occurs in [s]. *)
Fixpoint has (c : ascii) (s : string) : bool :=
  match s with
  | EmptyString => false
  | String x s' => Ascii.eqb x c || has c s'
  end.

(** [sep.join(parts)] *)
Fixpoint join (sep : ascii) (parts : list string) : string :=
  match parts with
  | [] => EmptyString
  | [x] => x
  | x :: rest => x +:+ String sep (join sep rest)
  end.

Fixpoint last_char (s : string) : option ascii :=
  match s with
  | EmptyString => None
  | String c s' =>
      match last_char s' with
      | None => Some c
      | Some x => Some x
      end
  end.

(** The number a text of decimal digits writes. *)
Fixpoint number_from (acc : Z) (s : string) : Z :=
  match s with
  | EmptyString => acc
  | String c s' => number_from (10 * acc + Str.digit_val c) s'
  end.

Definition number_of (s : string) : Z := number_from 0 s.

End Text.

(** * Properties *)

(** ** Text and dates on examples *)

Example split_ex : Str.split "." "a.b." = ["a"; "b"; ""]%string.
Proof. reflexivity. Qed.

Example strptime_ex1 :
  Strptime.strptime_Ymd "2024315" = Ok (Strptime.mk_date 2024 3 15).
Proof. vm_compute. reflexivity. Qed.

Example key_ex :
  target_key_of 2024 3 15 "report" = "year=2024/month=03/day=15/report.csv".
Proof. vm_compute. reflexivity. Qed.


(** ** Running the monad *)

Lemma bind_lift_ok {W A B} (a : A) (f : A -> M W B) (st : W * list call) :
  bind (lift (Ok a)) f st = f a st.
Proof. reflexivity. Qed.

Lemma bind_lift_raise {W A B} (e : exn) (f : A -> M W B) (st : W * list call) :
  bind (lift (Raise e : result A)) f st = (st, Raise e).
Proof. reflexivity. Qed.

Lemma bind_invoke {W A B} (c : call) (op : W -> W * result A) (f : A -> M W B)
  (w : W) (log : list call) :
  bind (invoke c op) f (w, log) =
  match op w with
  | (w', Ok a) => f a (w', (log ++ [c])%list)
  | (w', Raise e) => ((w', (log ++ [c])%list), Raise e)
  end.
Proof. unfold bind, invoke. destruct (op w) as [w' [a|e]]; reflexivity. Qed.

Lemma invoke_run {W A} (c : call) (op : W -> W * result A)
  (w : W) (log : list call) :
  invoke c op (w, log) = ((fst (op w), (log ++ [c])%list), snd (op w)).
Proof. unfold invoke. destruct (op w); reflexivity. Qed.

(** ** The partition of the specification's example *)

(** C4, as the program computes it: the file name report_20240315_v1.xlsx
    gives year 2024, month 3 and day 15; its prefix is the text before the
    first dot, report_20240315_v1, and the destination key is
    year=2024/month=03/day=15/report_20240315_v1.csv, which is the key of
    the object the handler stores. *)
Theorem partition_of_report_example :
  parse_date "report_20240315_v1.xlsx" = Ok (Strptime.mk_date 2024 3 15)
  /\ file_prefix_of "report_20240315_v1.xlsx" = "report_20240315_v1"
  /\ target_key_of 2024 3 15 (file_prefix_of "report_20240315_v1.xlsx")
     = "year=2024/month=03/day=15/report_20240315_v1.csv"
  /\ fst (lambda_handler demo_library kms_services
            (demo_event "report_20240315_v1.xlsx") (tt, []))
     = (tt, [GetObject (PStr "uploads") "report_20240315_v1.xlsx";
             PutObject target_bucket
                       "year=2024/month=03/day=15/report_20240315_v1.csv" "csv";
             GetBucketEncryption target_bucket;
             GetKeyPolicy (PStr "arn:aws:kms:eu-west-2:111:key/k") "default";
             PutBucketPolicy target_bucket "policy-json";
             StartCrawler "s3_input_crawler"]).
Proof. repeat split; vm_compute; reflexivity. Qed.

(** C4, as the specification states it, fails: the prefix of
    report_20240315_v1.xlsx is not report, and the destination key is not
    year=2024/month=03/day=15/report.csv. *)
Lemma partition_of_report_not_as_stated :
  ~ (parse_date "report_20240315_v1.xlsx" = Ok (Strptime.mk_date 2024 3 15)
     /\ file_prefix_of "report_20240315_v1.xlsx" = "report"
     /\ target_key_of 2024 3 15 (file_prefix_of "report_20240315_v1.xlsx")
        = "year=2024/month=03/day=15/report.csv").
Proof. intros (_ & H & _). vm_compute in H. discriminate H. Qed.

(** ** The bucket policy *)

Section Policy.

Context {W : Type}.
Variable lib : Library.
Variable svc : Services W.

(** C1: for every bucket name and every list of accounts, the empty one
    included, [attach_bucket_policy] makes one call, which applies the
    serialised policy document to the bucket; the document holds exactly
    two statements, an Allow statement whose Principal AWS list is the
    accounts, with action s3:* on the bucket and on its objects, and a Deny
    statement whose NotPrincipal AWS list is the accounts, with action
    s3:GetObject on the same two resources. *)
Theorem attach_bucket_policy_two_statements
  (bucket_name : string) (account_arns : list string) (w : W) (log : list call) :
  let doc := bucket_policy_doc bucket_name account_arns in
  let resources := PList [PStr ("arn:aws:s3:::" +:+ bucket_name);
                          PStr ("arn:aws:s3:::" +:+ bucket_name +:+ "/*")] in
  snd (fst (attach_bucket_policy lib svc bucket_name account_arns (w, log)))
  = (log ++ [PutBucketPolicy bucket_name (json_dumps lib doc)])%list
  /\ exists allow deny,
      Py.getitem doc "Statement" = Ok (PList [allow; deny])
      /\ Py.getitem allow "Effect" = Ok (PStr "Allow")
      /\ aws_of allow "Principal" = Ok (PList (List.map PStr account_arns))
      /\ Py.contains "NotPrincipal" allow = Ok false
      /\ Py.getitem allow "Action" = Ok (PStr "s3:*")
      /\ Py.getitem allow "Resource" = Ok resources
      /\ Py.getitem deny "Effect" = Ok (PStr "Deny")
      /\ aws_of deny "NotPrincipal" = Ok (PList (List.map PStr account_arns))
      /\ Py.contains "Principal" deny = Ok false
      /\ Py.getitem deny "Action" = Ok (PStr "s3:GetObject")
      /\ Py.getitem deny "Resource" = Ok resources
      /\ (account_arns = [] ->
          aws_of allow "Principal" = Ok (PList [])
          /\ aws_of deny "NotPrincipal" = Ok (PList [])).
Proof.
  intros doc resources. split.
  - unfold attach_bucket_policy. rewrite invoke_run. reflexivity.
  - unfold doc, bucket_policy_doc. eexists. eexists.
    split; [reflexivity|].
    repeat (split; [reflexivity|]).
    intros ->. split; reflexivity.
Qed.

End Policy.

(** ** Rejected uploads *)

Section Rejection.

Context {W : Type}.
Variable lib : Library.
Variable svc : Services W.

(** C6: when the extension of the uploaded object's key is not xlsx in any
    mix of upper and lower case, the handler returns the response with
    statusCode 400 and the body saying the file is not an Excel file; it
    raises nothing, makes no call to any service and leaves the world as it
    was. *)
Theorem non_excel_upload_rejected
  (event source_bucket : pyval) (source_key : string)
  (w : W) (log : list call)
  (Hbucket : event_field event "bucket" "name" = Ok source_bucket)
  (Hkey : event_field event "object" "key" = Ok (PStr source_key))
  (Hext : Str.lower (file_extension_of (file_name_of source_key)) <> "xlsx") :
  let file_name := file_name_of source_key in
  let response := response_400 file_name in
  lambda_handler lib svc event (w, log) = ((w, log), Ok response)
  /\ Py.getitem response "statusCode" = Ok (PInt 400)
  /\ Py.getitem response "body"
     = Ok (PStr ("Error: " +:+ file_name +:+ " is not an Excel file")).
Proof.
  intros file_name response. split; [|split; reflexivity].
  unfold lambda_handler. rewrite Hbucket, bind_lift_ok.
  rewrite Hkey, bind_lift_ok. cbn [as_text]. rewrite bind_lift_ok.
  destruct (String.eqb_spec
              (Str.lower (file_extension_of (file_name_of source_key))) "xlsx")
    as [Heq|Hne]; [contradiction|reflexivity].
Qed.

End Rejection.

Lemma non_excel_upload_rejected_witness :
  event_field (demo_event "notes.txt") "bucket" "name" = Ok (PStr "uploads")
  /\ lambda_handler demo_library kms_services
                    (demo_event "notes.txt") (tt, [])
     = ((tt, []), Ok (response_400 "notes.txt")).
Proof.
  split; [reflexivity|].
  apply (non_excel_upload_rejected demo_library
           kms_services
           (demo_event "notes.txt") (PStr "uploads") "notes.txt" tt []).
  - reflexivity.
  - reflexivity.
  - vm_compute. discriminate.
Defined.

(** ** The cleaning step *)

Module FrameFacts.

Import Frame.

Lemma select_length {A} (mask : list bool) (l : list A) :
  length l = length mask -> length (select mask l) = count_true mask.
Proof.
  revert l. induction mask as [|b mask IH]; intros [|x l] Hlen;
    try discriminate; [reflexivity|].
  injection Hlen as Hlen. unfold count_true in *. cbn.
  destruct b; cbn; rewrite IH by assumption; reflexivity.
Qed.

(** A selected position keeps its element. *)
Lemma select_keeps {A} (mask : list bool) (l : list A) (j : nat) (d : A) :
  length l = length mask -> (j < length mask)%nat ->
  List.nth j mask false = true -> In (List.nth j l d) (select mask l).
Proof.
  revert l j. induction mask as [|b mask IH]; intros [|x l] j Hlen Hj Hb;
    try discriminate; cbn in Hj; [lia|].
  injection Hlen as Hlen. destruct j as [|j]; cbn in Hb |- *.
  - subst b. left. reflexivity.
  - assert (Hin : In (List.nth j l d) (select mask l))
      by (apply IH; [assumption | lia | assumption]).
    destruct b; [right|]; exact Hin.
Qed.

(** Every position of a selection comes from a selected position. *)
Lemma select_origin (mask : list bool) (k : nat) :
  (k < count_true mask)%nat ->
  exists j, (j < length mask)%nat /\ List.nth j mask false = true
    /\ forall (A : Type) (l : list A) (d : A),
         length l = length mask ->
         List.nth k (select mask l) d = List.nth j l d.
Proof.
  revert k. induction mask as [|b mask IH]; intros k Hk.
  - cbn in Hk. lia.
  - destruct b.
    + destruct k as [|k].
      * exists 0%nat. repeat split; [cbn; lia|].
        intros A [|x l] d Hlen; [discriminate|reflexivity].
      * destruct (IH k) as (j & Hj & Hb & Hnth).
        { unfold count_true in *. cbn in Hk. lia. }
        exists (S j). repeat split; [cbn; lia | exact Hb |].
        intros A [|x l] d Hlen; [discriminate|].
        injection Hlen as Hlen. cbn. apply Hnth. exact Hlen.
    + destruct (IH k) as (j & Hj & Hb & Hnth).
      { unfold count_true in *. cbn in Hk. exact Hk. }
      exists (S j). repeat split; [cbn; lia | exact Hb |].
      intros A [|x l] d Hlen; [discriminate|].
      injection Hlen as Hlen. cbn. apply Hnth. exact Hlen.
Qed.

Lemma has_value_nth (row : list cell) :
  has_value row ->
  exists j, (j < length row)%nat /\ notna (List.nth j row None) = true.
Proof.
  unfold has_value. induction row as [|c row IH]; cbn; [discriminate|].
  destruct (notna c) eqn:Hc; cbn.
  - intros _. exists 0%nat. split; [lia | exact Hc].
  - intros H. destruct (IH H) as (j & Hj & Hn).
    exists (S j). split; [lia | exact Hn].
Qed.

Lemma has_value_of_In (row : list cell) (c : cell) :
  In c row -> notna c = true -> has_value row.
Proof.
  intros Hin Hc. unfold has_value. apply List.existsb_exists.
  exists c. split; assumption.
Qed.

Lemma column_mask_length (df : DataFrame) :
  length (column_mask df) = length (columns df).
Proof. unfold column_mask. rewrite List.length_map, List.length_seq. reflexivity. Qed.

Lemma column_mask_nth (df : DataFrame) (j : nat) :
  (j < length (columns df))%nat ->
  List.nth j (column_mask df) false
  = existsb (fun row => notna (List.nth j row None)) (values df).
Proof.
  intros Hj. unfold column_mask.
  rewrite (List.nth_indep _ false
             (existsb (fun row => notna (List.nth 0 row None)) (values df)))
    by (rewrite List.length_map, List.length_seq; exact Hj).
  rewrite (List.map_nth
             (fun j => existsb (fun row => notna (List.nth j row None)) (values df))).
  rewrite List.seq_nth by exact Hj. reflexivity.
Qed.

Lemma dropna_rows_rectangular (df : DataFrame) :
  rectangular df -> rectangular (dropna_rows df).
Proof.
  unfold rectangular, dropna_rows. cbn. intros H.
  rewrite List.Forall_forall in *. intros row Hin.
  apply List.filter_In in Hin. apply H. tauto.
Qed.

Lemma dropna_rows_has_value (df : DataFrame) :
  Forall has_value (values (dropna_rows df)).
Proof.
  unfold dropna_rows. cbn. apply List.Forall_forall. intros row Hin.
  apply List.filter_In in Hin. exact (proj2 Hin).
Qed.

(** The three properties for the frame left by the two [dropna] calls. *)
Lemma dropna_columns_grid (df : DataFrame) :
  rectangular df -> Forall has_value (values df) ->
  let grid := values (dropna_columns df) in
  let width := count_true (column_mask df) in
  Forall has_value grid
  /\ Forall (fun row => length row = width) grid
  /\ (grid <> [] -> forall k, (k < width)%nat ->
      Exists (fun row => notna (List.nth k row None) = true) grid).
Proof.
  intros Hrect Hval grid width. unfold rectangular in Hrect.
  rewrite List.Forall_forall in Hrect, Hval.
  assert (Hlen : forall row, In row (values df) ->
                 length row = length (column_mask df)).
  { intros row Hin. rewrite column_mask_length. apply Hrect. exact Hin. }
  unfold grid, dropna_columns. cbn [values].
  split; [|split].
  - apply List.Forall_forall. intros row' Hin'.
    apply List.in_map_iff in Hin' as (row & <- & Hin).
    destruct (has_value_nth row (Hval row Hin)) as (j & Hj & Hn).
    apply (has_value_of_In _ (List.nth j row None)); [|exact Hn].
    apply select_keeps; [apply Hlen; exact Hin | rewrite <- (Hlen row Hin); exact Hj |].
    rewrite column_mask_nth by (rewrite <- (Hrect row Hin); exact Hj).
    apply List.existsb_exists. exists row. split; assumption.
  - apply List.Forall_forall. intros row' Hin'.
    apply List.in_map_iff in Hin' as (row & <- & Hin).
    apply select_length. apply Hlen. exact Hin.
  - intros _ k Hk. destruct (select_origin _ k Hk) as (j & Hj & Hb & Hnth).
    rewrite column_mask_nth in Hb by (rewrite <- column_mask_length; exact Hj).
    apply List.existsb_exists in Hb as (row & Hin & Hn).
    apply List.Exists_exists. exists (select (column_mask df) row). split.
    + apply List.in_map. exact Hin.
    + rewrite (Hnth _ row None (Hlen row Hin)). exact Hn.
Qed.

(** C7: for every raw grid (a frame with one cell per column in every
    row), the cleaned table, made of its label row and its data rows, has
    no row without a value and no column without a value, and every data
    row has as many cells as the label row, which is the first surviving
    row.  The cleaning step returns such a table whenever some row of the
    grid has a value. *)
Theorem clean_has_no_empty_row_or_column (df : DataFrame)
  (Hrect : rectangular df) :
  (Exists has_value (values df) -> exists t, clean df = Ok t)
  /\ forall t, clean df = Ok t ->
     let grid := columns t :: values t in
     Forall has_value grid
     /\ (forall k, (k < length (columns t))%nat ->
         Exists (fun row => notna (List.nth k row None) = true) grid)
     /\ Forall (fun row => length row = length (columns t)) (values t)
     /\ List.hd_error (values (dropna_columns (dropna_rows df))) = Some (columns t).
Proof.
  pose proof (dropna_columns_grid (dropna_rows df)
                (dropna_rows_rectangular df Hrect) (dropna_rows_has_value df))
    as (Hrows & Hwidth & Hcols).
  unfold clean, iloc0. split.
  - intros Hex. apply List.Exists_exists in Hex as (row & Hin & Hv).
    assert (Hin' : In (select (column_mask (dropna_rows df)) row)
                      (values (dropna_columns (dropna_rows df)))).
    { unfold dropna_columns. cbn [values]. apply List.in_map.
      unfold dropna_rows. cbn [values]. apply List.filter_In. split; assumption. }
    destruct (values (dropna_columns (dropna_rows df))) as [|h rest];
      [destruct Hin' | eexists; reflexivity].
  - intros t. destruct (values (dropna_columns (dropna_rows df))) as [|h rest] eqn:Hgrid;
      cbn; [discriminate|].
    intros [= <-]. cbn [columns values List.tl].
    pose proof (List.Forall_inv Hwidth) as Hh.
    split; [exact Hrows|]. split; [|split; [|reflexivity]].
    + intros k Hk. apply Hcols; [discriminate | rewrite <- Hh; exact Hk].
    + apply List.Forall_inv_tail in Hwidth. rewrite Hh. exact Hwidth.
Qed.

(** C10, as the program behaves: on a frame in which no row has a value
    the cleaning step raises [IndexError], since no row is left to take
    the labels from; it returns no table. *)
Theorem clean_of_blank_grid_raises (df : DataFrame)
  (Hblank : Forall (fun row => existsb notna row = false) (values df)) :
  clean df = Raise IndexError.
Proof.
  unfold clean, iloc0, dropna_columns, dropna_rows. cbn [values columns].
  assert (Hnil : List.filter (existsb notna) (values df) = []).
  { induction Hblank as [|row rows Hrow _ IH]; [reflexivity|].
    cbn. rewrite Hrow. exact IH. }
  rewrite Hnil. reflexivity.
Qed.

End FrameFacts.

Lemma clean_has_no_empty_row_or_column_witness :
  rectangular demo_frame
  /\ Frame.clean demo_frame
     = Ok (mk_frame [Some (SText "name"); Some (SText "qty")]
                    [[Some (SText "bolt"); Some (SNum 4)]])
  /\ Forall has_value
       [[Some (SText "name"); Some (SText "qty")];
        [Some (SText "bolt"); Some (SNum 4)]].
Proof.
  assert (Hrect : rectangular demo_frame)
    by (repeat constructor).
  split; [exact Hrect|]. split; [reflexivity|].
  exact (proj1 (proj2 (FrameFacts.clean_has_no_empty_row_or_column
                         demo_frame Hrect) _ eq_refl)).
Defined.

Lemma clean_of_blank_grid_raises_witness :
  Forall (fun row => existsb Frame.notna row = false) (values blank_frame)
  /\ Frame.clean blank_frame = Raise IndexError.
Proof.
  assert (H : Forall (fun row => existsb Frame.notna row = false)
                     (values blank_frame))
    by (repeat constructor).
  split; [exact H|]. exact (FrameFacts.clean_of_blank_grid_raises blank_frame H).
Defined.

(** C10, as the specification states it, fails on the blank sheet: the
    cleaning step returns no table there, with or without data rows. *)
Lemma clean_of_blank_grid_not_header_only :
  Forall (fun row => existsb Frame.notna row = false) (values blank_frame)
  /\ ~ (exists headers, Frame.clean blank_frame = Ok (mk_frame headers [])).
Proof.
  split; [repeat constructor|].
  intros [headers H]. vm_compute in H. discriminate H.
Qed.

(** ** Principal extraction *)

Module PrincipalFacts.

Lemma add_arns_spec (arns : list pyval) (acc : gset string) :
  forallb Py.is_str arns = true ->
  exists s, add_arns arns acc = Ok s
    /\ forall a, a ∈ s <->
         a ∈ acc \/ (In (PStr a) arns /\ Str.endswith a ":root" = false).
Proof.
  revert acc. induction arns as [|arn arns IH]; intros acc Hstr.
  - exists acc. split; [reflexivity|]. intros a. cbn. tauto.
  - cbn in Hstr. apply andb_prop in Hstr as [Harn Harns].
    destruct arn as [| | |a0| |]; try discriminate. cbn.
    destruct (Str.endswith a0 ":root") eqn:Hroot.
    + destruct (IH acc Harns) as (s & -> & Hs). exists s.
      split; [reflexivity|]. intros a. rewrite Hs. split.
      * intros [H|[H1 H2]]; [left; exact H | right; split; [right; exact H1 | exact H2]].
      * intros [H|[[H1|H1] H2]]; [left; exact H | | right; split; assumption].
        injection H1 as <-. congruence.
    + destruct (IH ({[ a0 ]} ∪ acc) Harns) as (s & -> & Hs). exists s.
      split; [reflexivity|]. intros a. rewrite Hs, elem_of_union, elem_of_singleton.
      split.
      * intros [[H|H]|[H1 H2]].
        -- subst a. right. split; [left; reflexivity | exact Hroot].
        -- left. exact H.
        -- right. split; [right; exact H1 | exact H2].
      * intros [H|[[H1|H1] H2]].
        -- left. right. exact H.
        -- injection H1 as <-. left. left. reflexivity.
        -- right. split; assumption.
Qed.

Lemma named_by_dict (kvs : list (string * pyval)) (a : string) :
  named_by (PDict kvs) a <->
  exists pkvs aws,
    Py.lookup "Principal" kvs = Some (PDict pkvs)
    /\ Py.lookup "AWS" pkvs = Some aws
    /\ (aws = PStr a \/ exists l, aws = PList l /\ In (PStr a) l).
Proof.
  unfold named_by. cbn. split.
  - intros (principal & aws & Hp & Ha & Hor).
    destruct (Py.lookup "Principal" kvs) as [p|]; [|discriminate].
    injection Hp as ->. destruct principal as [| | | | |pkvs]; try discriminate.
    cbn in Ha. destruct (Py.lookup "AWS" pkvs) as [v|] eqn:Hv; [|discriminate].
    injection Ha as ->. exists pkvs, aws. auto.
  - intros (pkvs & aws & -> & Ha & Hor). exists (PDict pkvs), aws.
    cbn. rewrite Ha. auto.
Qed.

Lemma add_nothing (statement : pyval) (acc : gset string) :
  (forall a, ~ named_by statement a) ->
  forall a, a ∈ acc <->
    a ∈ acc \/ (named_by statement a /\ Str.endswith a ":root" = false).
Proof.
  intros Hno a. split; [tauto|]. intros [H|[H _]]; [exact H | destruct (Hno a H)].
Qed.

Lemma add_statement_spec (statement : pyval) (acc : gset string) :
  shaped_statement statement = true ->
  exists s, add_statement statement acc = Ok s
    /\ forall a, a ∈ s <->
         a ∈ acc \/ (named_by statement a /\ Str.endswith a ":root" = false).
Proof.
  intros Hshape.
  destruct statement as [| | | | |kvs]; try discriminate.
  unfold add_statement. cbn in Hshape. cbn [Py.contains Py.getitem rbind].
  destruct (Py.lookup "Principal" kvs) as [principal|] eqn:Hp; cbn [rbind].
  2:{ exists acc. split; [reflexivity|]. apply add_nothing.
      intros a H. apply named_by_dict in H as (? & ? & H & _). congruence. }
  destruct principal as [| | |ps| |pkvs]; try discriminate;
    cbn [Py.contains Py.getitem rbind]; cbn in Hshape.
  - apply negb_true_iff in Hshape. rewrite Hshape.
    exists acc. split; [reflexivity|]. apply add_nothing.
    intros a H. apply named_by_dict in H as (? & ? & H & _). congruence.
  - destruct (Py.lookup "AWS" pkvs) as [aws|] eqn:Haws; cbn [rbind].
    2:{ exists acc. split; [reflexivity|]. apply add_nothing.
        intros a H. apply named_by_dict in H as (? & ? & H & H' & _). congruence. }
    assert (Hinv : forall a, named_by (PDict kvs) a <->
              (aws = PStr a \/ exists l, aws = PList l /\ In (PStr a) l)).
    { intros a. rewrite named_by_dict. split.
      - intros (pkvs' & aws' & H1 & H2 & Hor).
        rewrite Hp in H1. injection H1 as <-.
        rewrite Haws in H2. injection H2 as <-. exact Hor.
      - intros Hor. exists pkvs, aws. auto. }
    destruct aws as [| | |a0|l|];
      try (exists acc; split; [reflexivity|]; apply add_nothing;
           intros a H; apply Hinv in H as [H|(l & H & _)]; discriminate H).
    + destruct (Str.endswith a0 ":root") eqn:Hroot.
      * exists acc. split; [reflexivity|]. intros a. rewrite Hinv. split; [tauto|].
        intros [H|[[[= <-]|(l & [=] & _)] H2]]; [exact H | congruence].
      * exists ({[ a0 ]} ∪ acc). split; [reflexivity|]. intros a.
        rewrite Hinv, elem_of_union, elem_of_singleton. split.
        -- intros [->|H]; [right; split; [left; reflexivity | exact Hroot] | left; exact H].
        -- intros [H|[[[= <-]|(l & [=] & _)] H2]]; [right; exact H | left; reflexivity].
    + destruct (add_arns_spec l acc Hshape) as (s & -> & Hs).
      exists s. split; [reflexivity|]. intros a. rewrite Hs, Hinv. split.
      * intros [H|[H1 H2]]; [left; exact H|]. right. split; [|exact H2].
        right. exists l. split; [reflexivity | exact H1].
      * intros [H|[[[=]|(l' & [= <-] & H1)] H2]]; [left; exact H|].
        right. split; assumption.
Qed.

Lemma add_statements_spec (statements : list pyval) (acc : gset string) :
  forallb shaped_statement statements = true ->
  exists s, add_statements statements acc = Ok s
    /\ forall a, a ∈ s <-> a ∈ acc \/ qualifies statements a.
Proof.
  revert acc. induction statements as [|st sts IH]; intros acc Hshape.
  - exists acc. split; [reflexivity|]. intros a. unfold qualifies. split; [tauto|].
    intros [H|[(st & [] & _) _]]. exact H.
  - cbn in Hshape. apply andb_prop in Hshape as [Hst Hsts].
    destruct (add_statement_spec st acc Hst) as (s1 & H1 & Hs1).
    destruct (IH s1 Hsts) as (s & H2 & Hs).
    exists s. cbn. rewrite H1. cbn. split; [exact H2|].
    intros a. rewrite Hs, Hs1. unfold qualifies. split.
    + intros [[H|[Hn Hr]]|[(st' & Hin & Hn) Hr]].
      * left. exact H.
      * right. split; [|exact Hr]. exists st. split; [left; reflexivity | exact Hn].
      * right. split; [|exact Hr]. exists st'. split; [right; exact Hin | exact Hn].
    + intros [H|[(st' & [<-|Hin] & Hn) Hr]].
      * left. left. exact H.
      * left. right. split; assumption.
      * right. split; [|exact Hr]. exists st'. split; assumption.
Qed.

(** C5, as the program behaves: for every key policy document of the
    shape [shaped_policy] (its Statement field is a list of dictionaries;
    a Principal field, when a statement has one, is a dictionary whose AWS
    entry, when it is a list, holds texts only, or it is a text in which
    AWS does not occur, such as the wildcard), the extraction returns, with
    no error, a list without duplicates whose elements are exactly the
    identifiers that occur in the Principal AWS field of some statement, as
    a single text or as an element of a list, and that do not end with
    :root.  Statements without a Principal field, without an AWS entry, or
    with an AWS entry that is neither a text nor a list, add nothing; the
    list is empty when no identifier qualifies. *)
Theorem extraction_returns_the_qualifying_principals
  (lib : Library) (key_metadata key_policy : pyval) (policy_text : string)
  (Hfield : Py.getitem key_metadata "Policy" = Ok (PStr policy_text))
  (Hloads : json_loads lib policy_text = Ok key_policy)
  (Hshape : shaped_policy key_policy = true) :
  exists account_arns,
    get_aws_account_arns_from_key_metadata lib key_metadata = Ok account_arns
    /\ NoDup account_arns
    /\ (forall a, In a account_arns <-> qualifies (statements_of key_policy) a)
    /\ ((forall a, ~ qualifies (statements_of key_policy) a) -> account_arns = []).
Proof.
  unfold get_aws_account_arns_from_key_metadata, account_arns_of_policy.
  rewrite Hfield. cbn [rbind]. rewrite Hloads. cbn [rbind].
  unfold shaped_policy in Hshape. unfold statements_of.
  destruct (Py.getitem key_policy "Statement") as [[| | | |sts|]|]; try discriminate.
  cbn [rbind Py.iter].
  destruct (add_statements_spec sts ∅ Hshape) as (s & -> & Hs). cbn [rbind].
  assert (Hiff : forall a, In a (elements s) <-> qualifies sts a).
  { intros a. rewrite <- list_elem_of_In, elem_of_elements, Hs.
    split; [intros [H|H]; [|exact H] | intros H; right; exact H].
    apply not_elem_of_empty in H. destruct H. }
  exists (elements s). split; [reflexivity|]. split; [apply NoDup_elements|].
  split; [exact Hiff|]. intros Hno.
  destruct (elements s) as [|a l]; [reflexivity|].
  destruct (Hno a). apply Hiff. left. reflexivity.
Qed.

End PrincipalFacts.

Lemma extraction_returns_the_qualifying_principals_witness :
  shaped_policy demo_policy = true
  /\ exists account_arns,
      get_aws_account_arns_from_key_metadata demo_library demo_metadata
      = Ok account_arns
      /\ NoDup account_arns
      /\ (forall a, In a account_arns <->
            qualifies (statements_of demo_policy) a)
      /\ ((forall a, ~ qualifies (statements_of demo_policy) a)
          -> account_arns = []).
Proof.
  split; [reflexivity|].
  apply (PrincipalFacts.extraction_returns_the_qualifying_principals
           demo_library demo_metadata demo_policy "policy-text");
    reflexivity.
Defined.

(** C5, as the specification states it, fails: the statement of
    [null_principal_policy] has a Principal field without an AWS entry,
    its value being null, and the extraction does not pass over it: the
    test ['AWS' in principal] raises [TypeError]. *)
Lemma statement_without_aws_entry_raises :
  statements_of null_principal_policy
  = [PDict [("Effect", PStr "Allow"); ("Principal", PNone);
            ("Action", PStr "kms:*")]]
  /\ (forall aws,
        aws_of (PDict [("Effect", PStr "Allow"); ("Principal", PNone);
                       ("Action", PStr "kms:*")]) "Principal" <> Ok aws)
  /\ get_aws_account_arns_from_key_metadata null_principal_library demo_metadata
     = Raise TypeError.
Proof.
  split; [reflexivity|]. split; [|reflexivity].
  intros aws H. discriminate H.
Qed.

(** ** Runs of the handler *)

Lemma bind_assoc {W A B C} (m : M W A) (f : A -> M W B) (g : B -> M W C)
  (st : W * list call) :
  bind (bind m f) g st = bind m (fun a => bind (f a) g) st.
Proof. unfold bind. destruct (m st) as [st' [a|e]]; reflexivity. Qed.

Lemma bind_lift {W A B} (r : result A) (f : A -> M W B) (st : W * list call) :
  bind (lift r) f st =
  match r with Ok a => f a st | Raise e => (st, Raise e) end.
Proof. destruct r; reflexivity. Qed.

Lemma format_02d_two_digits (n : Z) :
  0 <= n < 100 -> two_digits (Str.format_02d n) n = true.
Proof.
  intros Hn.
  assert (Hall : forallb (fun k => two_digits (Str.format_02d k) k)
                         (List.map Z.of_nat (List.seq 0 100)) = true)
    by (vm_compute; reflexivity).
  rewrite List.forallb_forall in Hall. apply Hall.
  apply List.in_map_iff. exists (Z.to_nat n). split; [lia|].
  apply List.in_seq. lia.
Qed.

Lemma strptime_valid (s : string) (d : Strptime.date) :
  Strptime.strptime_Ymd s = Ok d ->
  Strptime.valid_date (Strptime.year d) (Strptime.month d) (Strptime.day d) = true.
Proof.
  unfold Strptime.strptime_Ymd.
  destruct (Strptime.first_match s) as [[[[y m] dd] rest]|]; [|discriminate].
  destruct rest; [|discriminate].
  destruct (Strptime.valid_date y m dd) eqn:Hv; [|discriminate].
  intros [= <-]. exact Hv.
Qed.

Lemma valid_date_bounds (y m d : Z) :
  Strptime.valid_date y m d = true ->
  1 <= y <= 9999 /\ 1 <= m <= 12 /\ 1 <= d <= 31.
Proof.
  unfold Strptime.valid_date, Strptime.days_in_month. intros H.
  repeat (apply andb_prop in H as [H ?]).
  assert (d <= 31); [|lia].
  destruct (m =? 2); [destruct (Strptime.is_leap y); lia|].
  destruct ((m =? 4) || (m =? 6) || (m =? 9) || (m =? 11))%bool; lia.
Qed.

Section Handler.

Context {W : Type}.
Variable lib : Library.
Variable svc : Services W.

Ltac run_lift :=
  match goal with
  | |- context [bind (lift ?r) _ _] =>
      rewrite (bind_lift r); destruct r eqn:?
  end.

Ltac run_invoke :=
  match goal with
  | |- context [bind (invoke ?c ?op) _ (?w, _)] =>
      rewrite (bind_invoke c op); destruct (op w) as [? [?|?]] eqn:?
  end.

(** C3: every object the handler stores has a key of the form
    year=<Y>/month=<MM>/day=<DD>/<prefix>.csv, where Y is the decimal
    writing of the parsed year, MM and DD are exactly two digits that read
    the parsed month and day, and the prefix is the first token of the
    uploaded file name split on the dot. *)
Theorem destination_key_format
  (event : pyval) (w : W) (st' : W * list call) (r : result pyval)
  (bucket key body : string)
  (Hrun : lambda_handler lib svc event (w, []) = (st', r))
  (Hput : In (PutObject bucket key body) (snd st')) :
  exists source_key d mm dd,
    event_field event "object" "key" = Ok (PStr source_key)
    /\ Str.lower (file_extension_of (file_name_of source_key)) = "xlsx"
    /\ parse_date (file_name_of source_key) = Ok d
    /\ key = "year=" +:+ Str.of_int (Strptime.year d)
             +:+ "/month=" +:+ mm +:+ "/day=" +:+ dd +:+ "/"
             +:+ file_prefix_of (file_name_of source_key) +:+ ".csv"
    /\ two_digits mm (Strptime.month d) = true
    /\ two_digits dd (Strptime.day d) = true
    /\ 1 <= Strptime.year d <= 9999.
Proof.
  revert Hrun. unfold lambda_handler.
  run_lift. 2:{ intros [= <- <-]. destruct Hput. }
  run_lift. 2:{ intros [= <- <-]. destruct Hput. }
  assert (Hkey : forall d source_key,
            parse_date (file_name_of source_key) = Ok d ->
            exists mm dd,
              target_key_of (Strptime.year d) (Strptime.month d) (Strptime.day d)
                            (file_prefix_of (file_name_of source_key))
              = "year=" +:+ Str.of_int (Strptime.year d)
                +:+ "/month=" +:+ mm +:+ "/day=" +:+ dd +:+ "/"
                +:+ file_prefix_of (file_name_of source_key) +:+ ".csv"
              /\ two_digits mm (Strptime.month d) = true
              /\ two_digits dd (Strptime.day d) = true
              /\ 1 <= Strptime.year d <= 9999).
  { intros d source_key Hd. unfold parse_date in Hd.
    destruct (nth_error (Str.split "_" (file_name_of source_key)) 1); [|discriminate].
    apply strptime_valid, valid_date_bounds in Hd as (Hy & Hm & Hdd).
    exists (Str.format_02d (Strptime.month d)), (Str.format_02d (Strptime.day d)).
    split; [reflexivity|].
    split; [apply format_02d_two_digits; lia|].
    split; [apply format_02d_two_digits; lia | exact Hy]. }
  run_lift. 2:{ intros [= <- <-]. destruct Hput. }
  destruct a0 as [| | |source_key| |]; try discriminate.
  injection Heqr2 as <-.
  destruct (String.eqb_spec
              (Str.lower (file_extension_of (file_name_of source_key))) "xlsx")
    as [Hext|Hext].
  2:{ intros [= <- <-]. destruct Hput. }
  run_lift. 2:{ intros [= <- <-]. destruct Hput. }
  destruct (Hkey a0 source_key Heqr2) as (mm & dd & Hform & Hmm & Hdd & Hy).
  unfold get_kms_master_key, get_kms_key_metadata, attach_bucket_policy.
  cbv zeta.
  repeat first
    [ rewrite bind_assoc
    | run_lift
    | run_invoke ];
    intros [= <- <-]; cbn in Hput;
    repeat (destruct Hput as [Hput|Hput]; [try discriminate Hput|]);
    try contradiction;
    injection Hput as _ <- _;
    exists source_key, a0, mm, dd; auto 10.
Qed.

(** A run in which the upload succeeds goes on with the policy steps. *)
Lemma run_after_upload
  (event source_bucket : pyval) (source_key : string) (d : Strptime.date)
  (table : DataFrame) (w w2 : W)
  (Hup : upload_succeeds lib svc event w source_bucket source_key d table w2) :
  lambda_handler lib svc event (w, []) =
  (key_arn <- get_kms_master_key svc target_bucket ;;
   key_metadata <- get_kms_key_metadata svc key_arn ;;
   aws_account_arns <-
     lift (get_aws_account_arns_from_key_metadata lib key_metadata) ;;
   attach_bucket_policy lib svc target_bucket aws_account_arns ;;
   invoke (StartCrawler "s3_input_crawler")
          (glue_start_crawler svc "s3_input_crawler") ;;
   ret (response_200 (file_name_of source_key) (target_key_for source_key d)))%M
    (w2, upload_calls lib source_bucket source_key d table).
Proof.
  destruct Hup as (Hbucket & Hkey & Hext & Hdate & w1 & excel_data & excel_df
                   & Hget & Hread & Hclean & Hput).
  unfold lambda_handler.
  rewrite Hbucket, bind_lift_ok, Hkey, bind_lift_ok. cbn [as_text].
  rewrite bind_lift_ok, Hext, String.eqb_refl, Hdate, bind_lift_ok.
  rewrite bind_invoke, Hget, Hread, bind_lift_ok, Hclean, bind_lift_ok.
  fold (target_key_for source_key d).
  rewrite bind_invoke, Hput. reflexivity.
Qed.

(** A run in which the upload and the policy steps succeed ends with the
    call of the crawler. *)
Lemma run_after_policy
  (event source_bucket key_arn : pyval) (source_key : string)
  (d : Strptime.date) (table : DataFrame) (aws_account_arns : list string)
  (w w2 w5 : W)
  (Hup : upload_succeeds lib svc event w source_bucket source_key d table w2)
  (Hpol : policy_applied lib svc w2 key_arn aws_account_arns w5) :
  lambda_handler lib svc event (w, []) =
  (invoke (StartCrawler "s3_input_crawler")
          (glue_start_crawler svc "s3_input_crawler") ;;
   ret (response_200 (file_name_of source_key) (target_key_for source_key d)))%M
    (w5, (upload_calls lib source_bucket source_key d table
          ++ policy_calls lib key_arn aws_account_arns)%list).
Proof.
  rewrite (run_after_upload _ _ _ _ _ _ _ Hup).
  destruct Hpol as (w3 & response & w4 & key_metadata
                    & Henc & Hkey & Hkms & Harns & Hput).
  unfold get_kms_master_key, get_kms_key_metadata, attach_bucket_policy.
  cbv zeta.
  rewrite bind_assoc, bind_invoke, Henc, Hkey, bind_lift_ok.
  rewrite bind_invoke, Hkms, Harns, bind_lift_ok.
  rewrite bind_invoke, Hput. reflexivity.
Qed.

(** C2, as the program behaves: when the encryption configuration of the
    destination bucket resolves to no key identifier, the handler does not
    skip the policy steps; it asks the key-management client for the policy
    of the absent identifier, and when that call is rejected the
    invocation fails with its exception. *)
Theorem absent_key_is_passed_to_key_management
  (event source_bucket response : pyval) (source_key : string)
  (d : Strptime.date) (table : DataFrame) (w w2 w3 w4 : W)
  (answer : result pyval)
  (Hup : upload_succeeds lib svc event w source_bucket source_key d table w2)
  (Henc : s3_get_bucket_encryption svc target_bucket w2 = (w3, Ok response))
  (Hnokey : kms_master_key_of response = Ok PNone)
  (Hkms : kms_get_key_policy svc PNone "default" w3 = (w4, answer)) :
  In (GetKeyPolicy PNone "default")
     (snd (fst (lambda_handler lib svc event (w, []))))
  /\ forall e, answer = Raise e ->
       lambda_handler lib svc event (w, []) =
       ((w4, (upload_calls lib source_bucket source_key d table
              ++ [GetBucketEncryption target_bucket;
                  GetKeyPolicy PNone "default"])%list),
        Raise e).
Proof.
  rewrite (run_after_upload _ _ _ _ _ _ _ Hup).
  unfold get_kms_master_key, get_kms_key_metadata, attach_bucket_policy.
  cbv zeta.
  rewrite bind_assoc, bind_invoke, Henc, Hnokey, bind_lift_ok.
  rewrite bind_invoke, Hkms. split.
  - destruct answer as [key_metadata|e]; [|cbn; auto].
    repeat first [run_lift | run_invoke]; cbn; auto.
  - intros e ->. reflexivity.
Qed.

(** C9, as the program behaves: when the crawler cannot be started after
    the conversion, the upload and the policy application have succeeded,
    the exception of [start_crawler] ends the invocation; no response is
    returned. *)
Theorem crawler_failure_fails_the_invocation
  (event source_bucket key_arn : pyval) (source_key : string)
  (d : Strptime.date) (table : DataFrame) (aws_account_arns : list string)
  (w w2 w5 w6 : W) (e : exn)
  (Hup : upload_succeeds lib svc event w source_bucket source_key d table w2)
  (Hpol : policy_applied lib svc w2 key_arn aws_account_arns w5)
  (Hcrawl : glue_start_crawler svc "s3_input_crawler" w5 = (w6, Raise e)) :
  lambda_handler lib svc event (w, []) =
  ((w6, (upload_calls lib source_bucket source_key d table
         ++ policy_calls lib key_arn aws_account_arns
         ++ [StartCrawler "s3_input_crawler"])%list),
   Raise e).
Proof.
  rewrite (run_after_policy _ _ _ _ _ _ _ _ _ _ Hup Hpol).
  rewrite bind_invoke, Hcrawl, <- List.app_assoc. reflexivity.
Qed.

(** When the crawler starts as well, the handler answers 200 and names the
    destination key. *)
Lemma run_completes
  (event source_bucket key_arn : pyval) (source_key : string)
  (d : Strptime.date) (table : DataFrame) (aws_account_arns : list string)
  (w w2 w5 w6 : W)
  (Hup : upload_succeeds lib svc event w source_bucket source_key d table w2)
  (Hpol : policy_applied lib svc w2 key_arn aws_account_arns w5)
  (Hcrawl : glue_start_crawler svc "s3_input_crawler" w5 = (w6, Ok tt)) :
  lambda_handler lib svc event (w, []) =
  ((w6, (upload_calls lib source_bucket source_key d table
         ++ policy_calls lib key_arn aws_account_arns
         ++ [StartCrawler "s3_input_crawler"])%list),
   Ok (response_200 (file_name_of source_key) (target_key_for source_key d))).
Proof.
  rewrite (run_after_policy _ _ _ _ _ _ _ _ _ _ Hup Hpol).
  rewrite bind_invoke, Hcrawl, <- List.app_assoc. reflexivity.
Qed.

End Handler.


(** ** Runs on the concrete inputs *)

Lemma demo_upload_succeeds (encryption : pyval) (crawler : result unit) :
  upload_succeeds demo_library (demo_services encryption crawler)
    (demo_event "report_20240315_v1.xlsx") tt (PStr "uploads")
    "report_20240315_v1.xlsx" (Strptime.mk_date 2024 3 15) demo_table tt.
Proof.
  unfold upload_succeeds. repeat (split; [reflexivity|]).
  exists tt, "xlsx-bytes", demo_frame. repeat split; reflexivity.
Defined.

Lemma demo_policy_applied (crawler : result unit) :
  policy_applied demo_library (demo_services kms_encryption crawler) tt
    (PStr "arn:aws:kms:eu-west-2:111:key/k")
    ["arn:aws:iam::333:role/r"; "arn:aws:iam::222:user/x"] tt.
Proof.
  unfold policy_applied. exists tt, kms_encryption, tt, demo_metadata.
  repeat split; reflexivity.
Defined.

Lemma destination_key_format_witness :
  In (PutObject target_bucket
        "year=2024/month=03/day=15/report_20240315_v1.csv" "csv")
     (snd (fst (lambda_handler demo_library kms_services
                  (demo_event "report_20240315_v1.xlsx") (tt, []))))
  /\ exists source_key d mm dd,
      event_field (demo_event "report_20240315_v1.xlsx") "object" "key"
      = Ok (PStr source_key)
      /\ Str.lower (file_extension_of (file_name_of source_key)) = "xlsx"
      /\ parse_date (file_name_of source_key) = Ok d
      /\ "year=2024/month=03/day=15/report_20240315_v1.csv"
         = "year=" +:+ Str.of_int (Strptime.year d)
           +:+ "/month=" +:+ mm +:+ "/day=" +:+ dd +:+ "/"
           +:+ file_prefix_of (file_name_of source_key) +:+ ".csv"
      /\ two_digits mm (Strptime.month d) = true
      /\ two_digits dd (Strptime.day d) = true
      /\ 1 <= Strptime.year d <= 9999.
Proof.
  assert (Hput : In (PutObject target_bucket
                       "year=2024/month=03/day=15/report_20240315_v1.csv" "csv")
                    (snd (fst (lambda_handler demo_library kms_services
                                 (demo_event "report_20240315_v1.xlsx") (tt, [])))))
    by (vm_compute; right; left; reflexivity).
  split; [exact Hput|].
  exact (destination_key_format demo_library kms_services
           (demo_event "report_20240315_v1.xlsx") tt _ _
           target_bucket "year=2024/month=03/day=15/report_20240315_v1.csv" "csv"
           (surjective_pairing _) Hput).
Defined.

Lemma absent_key_is_passed_to_key_management_witness :
  kms_master_key_of aes_encryption = Ok PNone
  /\ lambda_handler demo_library aes_services
       (demo_event "report_20240315_v1.xlsx") (tt, [])
     = ((tt, [GetObject (PStr "uploads") "report_20240315_v1.xlsx";
              PutObject target_bucket
                "year=2024/month=03/day=15/report_20240315_v1.csv" "csv";
              GetBucketEncryption target_bucket;
              GetKeyPolicy PNone "default"]),
        Raise (ServiceError "ParamValidationError")).
Proof.
  split; [reflexivity|].
  exact (proj2 (absent_key_is_passed_to_key_management demo_library aes_services
                  (demo_event "report_20240315_v1.xlsx") (PStr "uploads")
                  aes_encryption "report_20240315_v1.xlsx"
                  (Strptime.mk_date 2024 3 15) demo_table tt tt tt tt
                  (Raise (ServiceError "ParamValidationError"))
                  (demo_upload_succeeds aes_encryption (Ok tt))
                  eq_refl eq_refl eq_refl)
               (ServiceError "ParamValidationError") eq_refl).
Defined.

Lemma crawler_failure_fails_the_invocation_witness :
  lambda_handler demo_library crawler_down_services
    (demo_event "report_20240315_v1.xlsx") (tt, [])
  = ((tt, [GetObject (PStr "uploads") "report_20240315_v1.xlsx";
           PutObject target_bucket
             "year=2024/month=03/day=15/report_20240315_v1.csv" "csv";
           GetBucketEncryption target_bucket;
           GetKeyPolicy (PStr "arn:aws:kms:eu-west-2:111:key/k") "default";
           PutBucketPolicy target_bucket "policy-json";
           StartCrawler "s3_input_crawler"]),
     Raise (ServiceError "CrawlerRunningException")).
Proof.
  exact (crawler_failure_fails_the_invocation demo_library crawler_down_services
           (demo_event "report_20240315_v1.xlsx") (PStr "uploads")
           (PStr "arn:aws:kms:eu-west-2:111:key/k") "report_20240315_v1.xlsx"
           (Strptime.mk_date 2024 3 15) demo_table
           ["arn:aws:iam::333:role/r"; "arn:aws:iam::222:user/x"]
           tt tt tt tt (ServiceError "CrawlerRunningException")
           (demo_upload_succeeds kms_encryption _)
           (demo_policy_applied _) eq_refl).
Defined.

(** C9, as the specification states it, fails: with every step up to the
    policy application succeeding and the crawler refusing to start, the
    handler returns no response at all, so not the 200 response. *)
Lemma crawler_failure_is_not_swallowed :
  upload_succeeds demo_library crawler_down_services (demo_event "report_20240315_v1.xlsx") tt
    (PStr "uploads") "report_20240315_v1.xlsx" (Strptime.mk_date 2024 3 15)
    demo_table tt
  /\ policy_applied demo_library crawler_down_services tt (PStr "arn:aws:kms:eu-west-2:111:key/k")
       ["arn:aws:iam::333:role/r"; "arn:aws:iam::222:user/x"] tt
  /\ glue_start_crawler crawler_down_services "s3_input_crawler" tt
     = (tt, Raise (ServiceError "CrawlerRunningException"))
  /\ ~ (exists response,
         snd (lambda_handler demo_library crawler_down_services
                (demo_event "report_20240315_v1.xlsx") (tt, []))
         = Ok response).
Proof.
  split; [apply demo_upload_succeeds|].
  split; [apply demo_policy_applied|]. split; [reflexivity|].
  intros [response H]. vm_compute in H. discriminate H.
Qed.

(** ** Date tokens *)

Module TokenFacts.

Import Strptime Token.

Lemma between_true (lo hi : nat) (c : ascii) :
  between lo hi c = true <-> (lo <= nat_of_ascii c <= hi)%nat.
Proof.
  unfold between. rewrite andb_true_iff, !Nat.leb_le. reflexivity.
Qed.

Lemma in_1_9_value (c : ascii) :
  in_1_9 c = true -> 1 <= Str.digit_val c <= 9.
Proof.
  unfold in_1_9. rewrite between_true. unfold Str.digit_val. lia.
Qed.

Lemma space_excludes (c : ascii) :
  is_space c = true -> in_1_9 c = false.
Proof.
  unfold is_space, in_1_9. rewrite between_true. intros H.
  destruct (between 49 57 c) eqn:E; [|reflexivity].
  apply between_true in E. lia.
Qed.

Lemma month_pair_value (a b : ascii) :
  (is1 a && in_0_2 b) || (is0 a && in_1_9 b) = true -> 1 <= two a b <= 12.
Proof.
  unfold is1, in_0_2, is0, in_1_9, two, Str.digit_val.
  rewrite orb_true_iff, !andb_true_iff, !between_true. lia.
Qed.

(** With a month 1..12 and a day 1..9 only the year decides. *)
Lemma valid_date_small_day (y m d m' d' : Z) :
  1 <= m <= 12 -> 1 <= d <= 9 ->
  valid_date y m d = false -> valid_date y m' d' = false.
Proof.
  intros Hm Hd. unfold valid_date.
  assert (Hdim : 28 <= days_in_month y m).
  { unfold days_in_month. destruct (m =? 2); [destruct (is_leap y); lia|].
    destruct ((m =? 4) || (m =? 6) || (m =? 9) || (m =? 11))%bool; lia. }
  rewrite !andb_false_iff, !Z.leb_gt. intros H. lia.
Qed.

(** A text that reads as a day is matched whole, and first. *)
Lemma day_alts_of_day_text (t : string) (d : Z) :
  day_text t = Some d -> List.hd_error (day_alts t) = Some (d, EmptyString).
Proof.
  destruct t as [|a [|b [|c r]]]; cbn; try discriminate.
  - destruct (in_1_9 a); [intros [= <-]; reflexivity | discriminate].
  - destruct (is3 a && in_0_1 b); [intros [= <-]; reflexivity|].
    destruct (in_1_2 a && Str.is_digit b); [intros [= <-]; reflexivity|].
    destruct (is0 a && in_1_9 b); [intros [= <-]; reflexivity|]. cbn.
    destruct (is_space a) eqn:Hsp; cbn; [|discriminate].
    rewrite (space_excludes a Hsp). cbn.
    destruct (in_1_9 b); [intros [= <-]; reflexivity | discriminate].
Qed.

(** A text that does not read as a day is matched, if at all, in part. *)
Lemma day_alts_of_no_day_text (t : string) :
  day_text t = None ->
  match List.hd_error (day_alts t) with
  | Some (_, rest) => rest <> EmptyString
  | None => True
  end.
Proof.
  destruct t as [|a [|b [|c r]]]; cbn; try exact (fun _ => I).
  - destruct (in_1_9 a); [discriminate | exact (fun _ => I)].
  - destruct (is3 a && in_0_1 b); [discriminate|].
    destruct (in_1_2 a && Str.is_digit b); [discriminate|].
    destruct (is0 a && in_1_9 b); [discriminate|]. cbn.
    destruct (in_1_9 a); cbn; [intros _; discriminate|].
    destruct (is_space a && in_1_9 b); [discriminate | exact (fun _ => I)].
  - intros _.
    destruct (is3 a && in_0_1 b); [cbn; discriminate|].
    destruct (in_1_2 a && Str.is_digit b); [cbn; discriminate|].
    destruct (is0 a && in_1_9 b); [cbn; discriminate|]. cbn.
    destruct (in_1_9 a); [cbn; discriminate|]. cbn.
    destruct (is_space a && in_1_9 b); [cbn; discriminate | exact I].
Qed.

Lemma one_month (y m : Z) (t : string) :
  verdict (List.hd_error (List.map (tag y m) (day_alts t)))
  = answer (reading y m t).
Proof.
  unfold reading. destruct (day_text t) as [d|] eqn:E.
  - apply day_alts_of_day_text in E.
    destruct (day_alts t) as [|p l]; [discriminate|].
    injection E as ->. cbn. destruct (valid_date y m d); reflexivity.
  - apply day_alts_of_no_day_text in E.
    destruct (day_alts t) as [|[d0 rest0] l]; [reflexivity|].
    cbn in E |- *. destruct rest0; [contradiction | reflexivity].
Qed.

Lemma two_months (y m2 m1 : Z) (b : ascii) (r : string) :
  1 <= m2 <= 12 ->
  verdict (List.hd_error (List.map (tag y m2) (day_alts r)
                          ++ List.map (tag y m1) (day_alts (String b r))))
  = answer (reading y m2 r ++ reading y m1 (String b r)).
Proof.
  intros Hm2. unfold reading at 1. destruct (day_text r) as [d|] eqn:E.
  - pose proof (day_alts_of_day_text r d E) as Hhd.
    destruct (day_alts r) as [|p l]; [discriminate|].
    injection Hhd as ->. cbn [List.map tag app List.hd_error verdict].
    destruct (valid_date y m2 d) eqn:Hv; [reflexivity|].
    assert (Hnone : reading y m1 (String b r) = []); [|rewrite Hnone; reflexivity].
    unfold reading. destruct r as [|c [|c' [|c'' r']]]; try discriminate E.
    + cbn in E. destruct (in_1_9 c) eqn:Hc; [|discriminate].
      injection E as <-.
      destruct (day_text (String b (String c EmptyString))); [|reflexivity].
      rewrite (valid_date_small_day y m2 (Str.digit_val c) m1 z Hm2
                 (in_1_9_value c Hc) Hv). reflexivity.
    + reflexivity.
  - cbn [app]. destruct (day_alts r) as [|[d0 rest0] l] eqn:Ed.
    + apply one_month.
    + pose proof (day_alts_of_no_day_text r E) as Hrest. rewrite Ed in Hrest.
      cbn in Hrest |- *. destruct rest0; [contradiction|].
      assert (Hnone : day_text (String b r) = None).
      { destruct r as [|c [|c' r']]; [discriminate Ed | | reflexivity].
        cbn in E, Ed. destruct (in_1_9 c); discriminate. }
      unfold reading. rewrite Hnone. reflexivity.
Qed.

Lemma is1_in_1_9 (a : ascii) : is1 a = true -> in_1_9 a = true /\ is0 a = false.
Proof.
  unfold is1, in_1_9, is0. rewrite !between_true. intros H. split.
  - lia.
  - destruct (between 48 48 a) eqn:E; [|reflexivity].
    apply between_true in E. lia.
Qed.

Lemma is0_not_in_1_9 (a : ascii) : is0 a = true -> in_1_9 a = false.
Proof.
  unfold is0, in_1_9. rewrite between_true. intros H.
  destruct (between 49 57 a) eqn:E; [|reflexivity].
  apply between_true in E. lia.
Qed.

(** [strptime] returns the first reading of the token, and raises
    [ValueError] when the token has none. *)
Lemma strptime_first_reading (s : string) :
  strptime_Ymd s = answer (readings s).
Proof.
  change (strptime_Ymd s) with (verdict (first_match s)).
  unfold first_match, readings.
  destruct (year_match s) as [[y s1]|]; [|reflexivity].
  destruct s1 as [|a [|b r]].
  - reflexivity.
  - cbn. destruct (in_1_9 a); reflexivity.
  - unfold month_alts. cbn [take drop flat_map month_text].
    change (match day_text ?t with
            | Some d => if valid_date y ?m d then [mk_date y ?m d] else []
            | None => []
            end) with (reading y m t).
    rewrite List.app_nil_r.
    destruct (is1 a) eqn:H1.
    + destruct (is1_in_1_9 a H1) as [H19 H0]. rewrite H19, H0.
      destruct (in_0_2 b) eqn:Hb; cbn [andb orb app flat_map];
        rewrite ?List.app_nil_r.
      * apply (two_months y (two a b) (Str.digit_val a) b r).
        apply month_pair_value. rewrite H1, Hb. reflexivity.
      * apply (one_month y (Str.digit_val a) (String b r)).
    + destruct (is0 a) eqn:H0.
      * rewrite (is0_not_in_1_9 a H0).
        destruct (in_1_9 b); cbn [andb orb app flat_map];
          rewrite ?List.app_nil_r; [|reflexivity].
        apply (one_month y (two a b) r).
      * destruct (in_1_9 a); cbn [andb orb app flat_map];
          rewrite ?List.app_nil_r; [|reflexivity].
        apply (one_month y (Str.digit_val a) (String b r)).
Qed.

Lemma between_false (lo hi : nat) (c : ascii) :
  between lo hi c = false <-> ~ (lo <= nat_of_ascii c <= hi)%nat.
Proof.
  rewrite <- between_true. destruct (between lo hi c).
  - split; [discriminate | intros H; destruct H; reflexivity].
  - split; [intros _ H; discriminate H | reflexivity].
Qed.

Ltac range_facts :=
  repeat match goal with
         | H : between _ _ _ = true |- _ => apply between_true in H
         | H : between _ _ _ = false |- _ => apply between_false in H
         | H : (_ && _)%bool = true |- _ => apply andb_prop in H as [? ?]
         | H : (_ && _)%bool = false |- _ => apply andb_false_iff in H as [H|H]
         | H : true = false |- _ => discriminate H
         end.

(** An 8-digit calendar date is read position by position. *)
Lemma yyyymmdd_first_reading (s : string) :
  is_yyyymmdd s = true ->
  exists y m d, strptime_Ymd s = Ok (mk_date y m d)
    /\ year_match s = Some (y, drop 4 s)
    /\ month_text (take 2 (drop 4 s)) = Some m
    /\ day_text (drop 6 s) = Some d.
Proof.
  destruct s as [|a [|b [|c [|d [|e [|f [|g [|h [|x r]]]]]]]]]; try discriminate.
  unfold is_yyyymmdd. cbn [forallb]. rewrite !andb_true_iff.
  intros ((Ha & Hb & Hc & Hd & He & Hf & Hg & Hh & _) & Hv).
  rewrite strptime_first_reading. unfold readings, year_match.
  rewrite Ha, Hb, Hc, Hd. cbn [andb take drop flat_map].
  set (y := 1000 * Str.digit_val a + 100 * Str.digit_val b
            + 10 * Str.digit_val c + Str.digit_val d) in *.
  pose proof (valid_date_bounds _ _ _ Hv) as (_ & Hm & Hday).
  unfold two, Str.digit_val in Hm, Hday.
  assert (Hmt : month_text (String e (String f EmptyString)) = Some (two e f)).
  { cbn. change (Str.is_digit e) with (between 48 57 e) in He.
    change (Str.is_digit f) with (between 48 57 f) in Hf.
    destruct (is1 e && in_0_2 f) eqn:E1; [reflexivity|].
    destruct (is0 e && in_1_9 f) eqn:E2; [reflexivity|]. exfalso.
    unfold is1, in_0_2, is0, in_1_9 in E1, E2. clear - He Hf Hm E1 E2.
    range_facts; lia. }
  assert (Hdt : day_text (String g (String h EmptyString)) = Some (two g h)).
  { cbn. change (Str.is_digit g) with (between 48 57 g) in Hg.
    destruct (is3 g && in_0_1 h) eqn:E1; [reflexivity|].
    destruct (in_1_2 g && Str.is_digit h) eqn:E2; [reflexivity|].
    destruct (is0 g && in_1_9 h) eqn:E3; [reflexivity|]. exfalso.
    change (Str.is_digit h) with (between 48 57 h) in Hh, E2.
    unfold is3, in_0_1, in_1_2, is0, in_1_9 in E1, E2, E3.
    clear - Hg Hh Hday E1 E2 E3.
    range_facts; lia. }
  rewrite Hmt, Hdt, Hv. exists y, (two e f), (two g h).
  repeat split; reflexivity.
Qed.

End TokenFacts.

(** ** Malformed file names *)

(** The date of a file name is the first reading of its second segment. *)
Lemma parse_date_first_reading (file_name : string) :
  parse_date file_name =
  match List.nth_error (Str.split "_" file_name) 1 with
  | None => Raise IndexError
  | Some date_str => Token.answer (Token.readings date_str)
  end.
Proof.
  unfold parse_date.
  destruct (List.nth_error (Str.split "_" file_name) 1); [|reflexivity].
  apply TokenFacts.strptime_first_reading.
Qed.

Section Malformed.

Context {W : Type}.
Variable lib : Library.
Variable svc : Services W.

(** C8, as the program behaves: for every uploaded file with the extension
    xlsx whose name has no second segment between underscores, or whose
    second segment cannot be read as four digits of year followed by a
    month (10..12, 01..09 or 1..9) and a day (01..31, 1..9, or a space and
    1..9) that form a calendar date, the derivation of the partition
    raises [IndexError] in the first case and [ValueError] in the second,
    and the invocation ends with that exception before any call to a
    service. *)
Theorem malformed_filename_fails
  (event source_bucket : pyval) (source_key : string)
  (w : W) (log : list call)
  (Hbucket : event_field event "bucket" "name" = Ok source_bucket)
  (Hkey : event_field event "object" "key" = Ok (PStr source_key))
  (Hext : Str.lower (file_extension_of (file_name_of source_key)) = "xlsx")
  (Hbad : malformed (file_name_of source_key) = true) :
  let e := match List.nth_error (Str.split "_" (file_name_of source_key)) 1 with
           | None => IndexError
           | Some _ => ValueError
           end in
  parse_date (file_name_of source_key) = Raise e
  /\ lambda_handler lib svc event (w, log) = ((w, log), Raise e).
Proof.
  intros e.
  assert (Hparse : parse_date (file_name_of source_key) = Raise e).
  { rewrite parse_date_first_reading. unfold e, malformed in *.
    destruct (List.nth_error (Str.split "_" (file_name_of source_key)) 1)
      as [date_str|]; [|reflexivity].
    destruct (Token.readings date_str); [reflexivity | discriminate]. }
  split; [exact Hparse|].
  unfold lambda_handler. rewrite Hbucket, bind_lift_ok, Hkey, bind_lift_ok.
  cbn [as_text]. rewrite bind_lift_ok, Hext, String.eqb_refl, Hparse.
  reflexivity.
Qed.

End Malformed.

Lemma malformed_filename_fails_witness :
  malformed (file_name_of "badname.xlsx") = true
  /\ parse_date (file_name_of "badname.xlsx") = Raise IndexError
  /\ lambda_handler demo_library kms_services (demo_event "badname.xlsx") (tt, [])
     = ((tt, []), Raise IndexError).
Proof.
  split; [reflexivity|].
  exact (malformed_filename_fails demo_library kms_services
           (demo_event "badname.xlsx") (PStr "uploads") "badname.xlsx" tt []
           eq_refl eq_refl eq_refl eq_refl).
Defined.

(** C8, as the specification states it, fails: the second segment of
    sales_2024315_q.xlsx has seven digits, so it is no 8-digit YYYYMMDD
    token, and the derivation succeeds with 15 March 2024. *)
Lemma seven_digit_token_is_accepted :
  Str.lower (file_extension_of "sales_2024315_q.xlsx") = "xlsx"
  /\ List.nth_error (Str.split "_" "sales_2024315_q.xlsx") 1 = Some "2024315"
  /\ Token.is_yyyymmdd "2024315" = false
  /\ parse_date "sales_2024315_q.xlsx" = Ok (Strptime.mk_date 2024 3 15).
Proof. repeat split; vm_compute; reflexivity. Qed.

(** * Further properties *)

(** ** The cleaning step drops blank cells only *)

Module FrameKeeps.

Import Frame.

Lemma select_filter_notna (mask : list bool) (row : list cell) :
  length row = length mask ->
  (forall j, (j < length row)%nat ->
             notna (List.nth j row None) = true ->
             List.nth j mask false = true) ->
  List.filter notna (select mask row) = List.filter notna row.
Proof.
  revert row. induction mask as [|b mask IH]; intros [|c row] Hlen Hkeep;
    try discriminate; [reflexivity|].
  injection Hlen as Hlen.
  assert (Htail : List.filter notna (select mask row) = List.filter notna row).
  { apply IH; [exact Hlen|]. intros j Hj Hn.
    apply (Hkeep (S j)); [cbn; lia | exact Hn]. }
  cbn. destruct b.
  - cbn. rewrite Htail. reflexivity.
  - rewrite Htail. destruct (notna c) eqn:Hc; [|reflexivity].
    specialize (Hkeep 0%nat). cbn in Hkeep.
    discriminate (Hkeep ltac:(lia) Hc).
Qed.

Lemma has_value_count (row : list cell) :
  existsb notna row = negb (Nat.eqb (value_count row) 0).
Proof.
  unfold value_count. induction row as [|c row IH]; [reflexivity|]. cbn.
  destruct (notna c); cbn; [reflexivity | exact IH].
Qed.

Lemma dropna_rows_counts (df : DataFrame) :
  List.map value_count (values (dropna_rows df))
  = List.filter (fun n => negb (Nat.eqb n 0))
                (List.map value_count (values df)).
Proof.
  unfold dropna_rows. cbn [values].
  induction (values df) as [|row rows IH]; [reflexivity|]. cbn.
  rewrite <- has_value_count.
  destruct (existsb notna row); cbn; rewrite IH; reflexivity.
Qed.

Lemma dropna_columns_counts (df : DataFrame) :
  rectangular df ->
  List.map value_count (values (dropna_columns df))
  = List.map value_count (values df).
Proof.
  intros Hrect. unfold dropna_columns. cbn [values].
  rewrite List.map_map. apply List.map_ext_in. intros row Hin.
  unfold rectangular in Hrect. rewrite List.Forall_forall in Hrect.
  unfold value_count. f_equal. apply select_filter_notna.
  - rewrite FrameFacts.column_mask_length. apply Hrect. exact Hin.
  - intros j Hj Hn.
    rewrite FrameFacts.column_mask_nth by (rewrite <- (Hrect row Hin); exact Hj).
    apply List.existsb_exists. exists row. split; assumption.
Qed.

(** X1: the cleaning step removes blank cells only.  Row by row, the
    cleaned table, label row first, holds as many values as the rows of
    the raw grid that hold a value at all, in the same order: a row
    without a value disappears, and every other row keeps the number of
    its values, whatever columns are dropped. *)
Theorem clean_drops_only_blank_cells (df t : DataFrame)
  (Hrect : rectangular df)
  (Hclean : clean df = Ok t) :
  List.map value_count (columns t :: values t)
  = List.filter (fun n => negb (Nat.eqb n 0))
                (List.map value_count (values df)).
Proof.
  rewrite <- (dropna_rows_counts df).
  rewrite <- (dropna_columns_counts (dropna_rows df))
    by (apply FrameFacts.dropna_rows_rectangular; exact Hrect).
  unfold clean, iloc0 in Hclean.
  destruct (values (dropna_columns (dropna_rows df))) as [|h rest];
    [discriminate|].
  cbn in Hclean. injection Hclean as <-. reflexivity.
Qed.

Lemma select_all {A} (mask : list bool) (l : list A) :
  length l = length mask -> Forall (fun b => b = true) mask ->
  select mask l = l.
Proof.
  revert l. induction mask as [|b mask IH]; intros [|x l] Hlen Hall;
    try discriminate; [reflexivity|].
  injection Hlen as Hlen. inversion Hall as [|? ? Hb Hrest]; subst.
  cbn. rewrite IH by assumption. reflexivity.
Qed.

Lemma filter_all {A} (f : A -> bool) (l : list A) :
  Forall (fun x => f x = true) l -> List.filter f l = l.
Proof.
  induction 1 as [|x l Hx _ IH]; [reflexivity|]. cbn. rewrite Hx, IH. reflexivity.
Qed.

(** X2: on a grid with at least one row, without a blank row and without
    a blank column, the cleaning step returns a table and drops no row and
    no column: the label row and the data rows together have as many rows
    and cells as the grid, with values and blanks at the same positions. *)
Theorem clean_of_tidy_grid_keeps_the_pattern (df : DataFrame)
  (Hrect : rectangular df)
  (Hsome : values df <> [])
  (Hrows : Forall has_value (values df))
  (Hcols : forall j, (j < length (columns df))%nat ->
                     column_has_value (values df) j) :
  exists t, clean df = Ok t
    /\ value_pattern (columns t :: values t) = value_pattern (values df).
Proof.
  assert (Hkeep : dropna_rows df = df).
  { unfold dropna_rows. rewrite (filter_all _ _ Hrows). destruct df; reflexivity. }
  assert (Hmask : Forall (fun b => b = true) (column_mask df)).
  { unfold column_mask. apply List.Forall_forall. intros b Hb.
    apply List.in_map_iff in Hb as (j & <- & Hj). apply List.in_seq in Hj.
    specialize (Hcols j ltac:(lia)). unfold column_has_value in Hcols.
    apply List.Exists_exists in Hcols as (row & Hin & Hn).
    apply List.existsb_exists. exists row. split; assumption. }
  unfold clean. rewrite Hkeep. unfold dropna_columns, iloc0. cbn [values].
  assert (Hsame : List.map (select (column_mask df)) (values df) = values df).
  { rewrite <- (List.map_id (values df)) at 2. apply List.map_ext_in.
    intros row Hin. apply select_all; [|exact Hmask].
    rewrite FrameFacts.column_mask_length.
    unfold rectangular in Hrect. rewrite List.Forall_forall in Hrect.
    apply Hrect. exact Hin. }
  rewrite Hsame. destruct (values df) as [|header rows]; [congruence|].
  eexists. split; reflexivity.
Qed.

End FrameKeeps.

Lemma clean_drops_only_blank_cells_witness :
  rectangular demo_frame
  /\ Frame.clean demo_frame = Ok demo_table
  /\ List.map value_count (values demo_frame) = [0; 2; 0; 2]%nat
  /\ List.map value_count (columns demo_table :: values demo_table) = [2; 2]%nat.
Proof.
  assert (Hrect : rectangular demo_frame) by (repeat constructor).
  split; [exact Hrect|]. split; [reflexivity|]. split; [reflexivity|].
  exact (FrameKeeps.clean_drops_only_blank_cells demo_frame demo_table
           Hrect eq_refl).
Defined.

Lemma clean_of_tidy_grid_keeps_the_pattern_witness :
  rectangular tidy_frame
  /\ exists t, Frame.clean tidy_frame = Ok t
      /\ value_pattern (columns t :: values t)
         = [[true; false]; [true; true]].
Proof.
  assert (Hrect : rectangular tidy_frame) by (repeat constructor).
  split; [exact Hrect|].
  apply (FrameKeeps.clean_of_tidy_grid_keeps_the_pattern tidy_frame Hrect).
  - discriminate.
  - repeat constructor.
  - intros j Hj. unfold column_has_value.
    destruct j as [|[|j]]; [left; reflexivity | right; left; reflexivity |].
    cbn in Hj. lia.
Defined.

(** ** Principal extraction on any document *)

Module PrincipalAny.

Lemma add_arns_ok (arns : list pyval) (acc s : gset string) :
  add_arns arns acc = Ok s ->
  forall a, a ∈ s <->
    a ∈ acc \/ (In (PStr a) arns /\ Str.endswith a ":root" = false).
Proof.
  revert acc. induction arns as [|arn arns IH]; intros acc Hrun a.
  - injection Hrun as <-. cbn. tauto.
  - destruct arn as [| | |a0| |]; try discriminate Hrun. cbn in Hrun.
    rewrite (IH _ Hrun a). destruct (Str.endswith a0 ":root") eqn:Hroot.
    + split.
      * intros [H|[H1 H2]]; [left; exact H | right; split; [right; exact H1 | exact H2]].
      * intros [H|[[H1|H1] H2]]; [left; exact H | | right; split; assumption].
        injection H1 as <-. congruence.
    + rewrite elem_of_union, elem_of_singleton. split.
      * intros [[H|H]|[H1 H2]].
        -- subst a. right. split; [left; reflexivity | exact Hroot].
        -- left. exact H.
        -- right. split; [right; exact H1 | exact H2].
      * intros [H|[[H1|H1] H2]].
        -- left. right. exact H.
        -- injection H1 as <-. left. left. reflexivity.
        -- right. split; assumption.
Qed.

Lemma add_arns_raises (arns : list pyval) (acc : gset string) :
  forallb Py.is_str arns = false -> add_arns arns acc = Raise AttributeError.
Proof.
  revert acc. induction arns as [|arn arns IH]; intros acc H; [discriminate|].
  destruct arn as [| | |a0| |]; try reflexivity. cbn in H |- *. apply IH. exact H.
Qed.

Lemma not_named_by_other (statement : pyval) (a : string) :
  (forall kvs, statement <> PDict kvs) -> ~ named_by statement a.
Proof.
  intros Hno (principal & aws & H & _).
  destruct statement; try discriminate H. exact (Hno _ eq_refl).
Qed.

Lemma add_statement_ok (statement : pyval) (acc s : gset string) :
  add_statement statement acc = Ok s ->
  forall a, a ∈ s <->
    a ∈ acc \/ (named_by statement a /\ Str.endswith a ":root" = false).
Proof.
  unfold add_statement. intros Hrun.
  destruct (Py.contains "Principal" statement) as [[|]|] eqn:Hhas;
    cbn [rbind] in Hrun; try discriminate Hrun.
  2:{ injection Hrun as <-. apply PrincipalFacts.add_nothing.
      intros a (principal & aws & H & _).
      destruct statement as [| | | | |kvs]; try discriminate H.
      cbn in Hhas, H. destruct (Py.lookup "Principal" kvs); discriminate. }
  destruct statement as [| | | | |kvs]; try discriminate Hrun.
  cbn [Py.getitem] in Hrun.
  destruct (Py.lookup "Principal" kvs) as [principal|] eqn:Hp;
    cbn [rbind] in Hrun; [|discriminate Hrun].
  destruct (Py.contains "AWS" principal) as [[|]|] eqn:Haws_in;
    cbn [rbind] in Hrun; try discriminate Hrun.
  2:{ injection Hrun as <-. apply PrincipalFacts.add_nothing.
      intros a H. apply PrincipalFacts.named_by_dict in H
        as (pkvs & aws & H1 & H2 & _).
      rewrite Hp in H1. injection H1 as ->. cbn in Haws_in.
      rewrite H2 in Haws_in. discriminate. }
  destruct principal as [| | | | |pkvs]; try discriminate Hrun.
  cbn [Py.getitem] in Hrun.
  destruct (Py.lookup "AWS" pkvs) as [aws|] eqn:Haws;
    cbn [rbind] in Hrun; [|discriminate Hrun].
  assert (Hinv : forall a, named_by (PDict kvs) a <->
            (aws = PStr a \/ exists l, aws = PList l /\ In (PStr a) l)).
  { intros a. rewrite PrincipalFacts.named_by_dict. split.
    - intros (pkvs' & aws' & H1 & H2 & Hor).
      rewrite Hp in H1. injection H1 as <-.
      rewrite Haws in H2. injection H2 as <-. exact Hor.
    - intros Hor. exists pkvs, aws. auto. }
  destruct aws as [| | |a0|l|];
    try (injection Hrun as <-; apply PrincipalFacts.add_nothing;
         intros a H; apply Hinv in H as [H|(l & H & _)]; discriminate H).
  - intros a. rewrite Hinv. destruct (Str.endswith a0 ":root") eqn:Hroot;
      injection Hrun as <-.
    + split; [tauto|].
      intros [H|[[[= <-]|(l & [=] & _)] H2]]; [exact H | congruence].
    + rewrite elem_of_union, elem_of_singleton. split.
      * intros [->|H]; [right; split; [left; reflexivity | exact Hroot] | left; exact H].
      * intros [H|[[[= <-]|(l & [=] & _)] H2]]; [right; exact H | left; reflexivity].
  - intros a. rewrite (add_arns_ok l acc s Hrun a), Hinv. split.
    + intros [H|[H1 H2]]; [left; exact H|]. right. split; [|exact H2].
      right. exists l. split; [reflexivity | exact H1].
    + intros [H|[[[=]|(l' & [= <-] & H1)] H2]]; [left; exact H|].
      right. split; assumption.
Qed.

Lemma add_statements_ok (statements : list pyval) (acc s : gset string) :
  add_statements statements acc = Ok s ->
  forall a, a ∈ s <-> a ∈ acc \/ qualifies statements a.
Proof.
  revert acc. induction statements as [|st sts IH]; intros acc Hrun a.
  - injection Hrun as <-. unfold qualifies. split; [tauto|].
    intros [H|[(st & [] & _) _]]. exact H.
  - cbn in Hrun. destruct (add_statement st acc) as [s1|] eqn:H1;
      cbn [rbind] in Hrun; [|discriminate Hrun].
    rewrite (IH s1 Hrun a), (add_statement_ok st acc s1 H1 a).
    unfold qualifies. split.
    + intros [[H|[Hn Hr]]|[(st' & Hin & Hn) Hr]].
      * left. exact H.
      * right. split; [|exact Hr]. exists st. split; [left; reflexivity | exact Hn].
      * right. split; [|exact Hr]. exists st'. split; [right; exact Hin | exact Hn].
    + intros [H|[(st' & [<-|Hin] & Hn) Hr]].
      * left. left. exact H.
      * left. right. split; assumption.
      * right. split; [|exact Hr]. exists st'. split; assumption.
Qed.

(** X3: on key metadata of any shape, whenever the extraction returns a
    list, the list has no duplicates and its elements are exactly the
    identifiers that occur in the Principal AWS field of a visited
    statement and do not end with :root; so an identifier ending with
    :root is never returned. *)
Theorem extraction_is_exact_whenever_it_returns
  (lib : Library) (key_metadata : pyval) (account_arns : list string)
  (Hrun : get_aws_account_arns_from_key_metadata lib key_metadata
          = Ok account_arns) :
  NoDup account_arns
  /\ (forall a, In a account_arns -> Str.endswith a ":root" = false)
  /\ exists policy_text key_policy statements,
      Py.getitem key_metadata "Policy" = Ok (PStr policy_text)
      /\ json_loads lib policy_text = Ok key_policy
      /\ visited_statements key_policy = Ok statements
      /\ forall a, In a account_arns <-> qualifies statements a.
Proof.
  unfold get_aws_account_arns_from_key_metadata, account_arns_of_policy in Hrun.
  destruct (Py.getitem key_metadata "Policy") as [[| | |policy_text| |]|] eqn:Hfield;
    cbn [rbind] in Hrun; try discriminate Hrun.
  destruct (json_loads lib policy_text) as [key_policy|] eqn:Hloads;
    cbn [rbind] in Hrun; [|discriminate Hrun].
  fold (visited_statements key_policy) in Hrun.
  assert (Hshape : exists statements s,
             visited_statements key_policy = Ok statements
             /\ add_statements statements ∅ = Ok s
             /\ account_arns = elements s).
  { unfold visited_statements in *.
    destruct (Py.getitem key_policy "Statement") as [field|];
      cbn [rbind] in Hrun |- *; [|discriminate Hrun].
    destruct (Py.iter field) as [statements|];
      cbn [rbind] in Hrun |- *; [|discriminate Hrun].
    destruct (add_statements statements ∅) as [s|] eqn:Hs;
      cbn [rbind] in Hrun; [|discriminate Hrun].
    injection Hrun as <-. exists statements, s. auto. }
  destruct Hshape as (statements & s & Hvisit & Hs & ->).
  assert (Hiff : forall a, In a (elements s) <-> qualifies statements a).
  { intros a. rewrite <- list_elem_of_In, elem_of_elements.
    rewrite (add_statements_ok statements ∅ s Hs a).
    split; [intros [H|H]; [|exact H] | intros H; right; exact H].
    apply not_elem_of_empty in H. destruct H. }
  split; [apply NoDup_elements|]. split.
  - intros a Hin. apply Hiff in Hin. exact (proj2 Hin).
  - exists policy_text, key_policy, statements. auto.
Qed.

(** X4: an AWS list with an element that is no text makes the extraction
    raise [AttributeError], when the statements before it are well shaped;
    the statements after it are not looked at. *)
Theorem extraction_raises_on_non_text_principal
  (lib : Library) (key_metadata key_policy statement principal : pyval)
  (policy_text : string) (before after arns : list pyval)
  (Hfield : Py.getitem key_metadata "Policy" = Ok (PStr policy_text))
  (Hloads : json_loads lib policy_text = Ok key_policy)
  (Hstatements : Py.getitem key_policy "Statement"
                 = Ok (PList (before ++ statement :: after)))
  (Hbefore : forallb shaped_statement before = true)
  (Hprincipal : Py.getitem statement "Principal" = Ok principal)
  (Haws : Py.getitem principal "AWS" = Ok (PList arns))
  (Hbad : forallb Py.is_str arns = false) :
  get_aws_account_arns_from_key_metadata lib key_metadata
  = Raise AttributeError.
Proof.
  unfold get_aws_account_arns_from_key_metadata, account_arns_of_policy.
  rewrite Hfield. cbn [rbind]. rewrite Hloads. cbn [rbind].
  rewrite Hstatements. cbn [rbind Py.iter].
  assert (Hone : forall acc, add_statement statement acc = Raise AttributeError).
  { intros acc. unfold add_statement.
    destruct statement as [| | | | |kvs]; try discriminate Hprincipal.
    cbn in Hprincipal |- *.
    destruct (Py.lookup "Principal" kvs) as [p|]; [|discriminate Hprincipal].
    injection Hprincipal as ->. cbn [rbind].
    destruct principal as [| | | | |pkvs]; try discriminate Haws.
    cbn in Haws |- *.
    destruct (Py.lookup "AWS" pkvs) as [v|]; [|discriminate Haws].
    injection Haws as ->. cbn [rbind]. apply add_arns_raises. exact Hbad. }
  clear Hstatements.
  generalize (∅ : gset string). induction before as [|st sts IH]; intros acc.
  - cbn. rewrite Hone. reflexivity.
  - cbn in Hbefore. apply andb_prop in Hbefore as [Hst Hsts].
    destruct (PrincipalFacts.add_statement_spec st acc Hst) as (s1 & H1 & _).
    cbn. rewrite H1. cbn [rbind]. apply IH. exact Hsts.
Qed.

(** X5: the order of the statements, and a statement given twice, do not
    change what is extracted: two well-shaped key policies whose lists of
    statements hold the same statements give the same identifiers, up to
    the order of the list returned. *)
Theorem extraction_ignores_statement_order
  (lib : Library) (metadata1 metadata2 policy1 policy2 : pyval)
  (text1 text2 : string)
  (Hfield1 : Py.getitem metadata1 "Policy" = Ok (PStr text1))
  (Hfield2 : Py.getitem metadata2 "Policy" = Ok (PStr text2))
  (Hloads1 : json_loads lib text1 = Ok policy1)
  (Hloads2 : json_loads lib text2 = Ok policy2)
  (Hshape1 : shaped_policy policy1 = true)
  (Hshape2 : shaped_policy policy2 = true)
  (Hsame : forall statement,
      In statement (statements_of policy1) <-> In statement (statements_of policy2)) :
  exists arns1 arns2,
    get_aws_account_arns_from_key_metadata lib metadata1 = Ok arns1
    /\ get_aws_account_arns_from_key_metadata lib metadata2 = Ok arns2
    /\ arns1 ≡ₚ arns2.
Proof.
  unfold get_aws_account_arns_from_key_metadata, account_arns_of_policy.
  rewrite Hfield1, Hfield2. cbn [rbind]. rewrite Hloads1, Hloads2. cbn [rbind].
  unfold shaped_policy in Hshape1, Hshape2. unfold statements_of in Hsame.
  destruct (Py.getitem policy1 "Statement") as [[| | | |sts1|]|]; try discriminate.
  destruct (Py.getitem policy2 "Statement") as [[| | | |sts2|]|]; try discriminate.
  cbn [rbind Py.iter].
  destruct (PrincipalFacts.add_statements_spec sts1 ∅ Hshape1) as (s1 & -> & Hs1).
  destruct (PrincipalFacts.add_statements_spec sts2 ∅ Hshape2) as (s2 & -> & Hs2).
  cbn [rbind]. exists (elements s1), (elements s2).
  split; [reflexivity|]. split; [reflexivity|].
  assert (Heq : s1 = s2).
  { apply set_eq. intros a. rewrite Hs1, Hs2. unfold qualifies.
    split; intros [H|[(st & Hin & Hn) Hr]]; try (left; exact H);
      right; (split; [|exact Hr]); exists st; (split; [|exact Hn]);
      apply Hsame; exact Hin. }
  rewrite Heq. reflexivity.
Qed.

End PrincipalAny.

Lemma extraction_is_exact_whenever_it_returns_witness :
  get_aws_account_arns_from_key_metadata demo_library demo_metadata
  = Ok ["arn:aws:iam::333:role/r"; "arn:aws:iam::222:user/x"]
  /\ NoDup ["arn:aws:iam::333:role/r"; "arn:aws:iam::222:user/x"]
  /\ forall a, In a ["arn:aws:iam::333:role/r"; "arn:aws:iam::222:user/x"] ->
               Str.endswith a ":root" = false.
Proof.
  split; [reflexivity|].
  pose proof (PrincipalAny.extraction_is_exact_whenever_it_returns
                demo_library demo_metadata
                ["arn:aws:iam::333:role/r"; "arn:aws:iam::222:user/x"] eq_refl)
    as (Hnodup & Hroot & _).
  split; [exact Hnodup | exact Hroot].
Defined.

Lemma extraction_raises_on_non_text_principal_witness :
  get_aws_account_arns_from_key_metadata numbered_library demo_metadata
  = Raise AttributeError.
Proof.
  apply (PrincipalAny.extraction_raises_on_non_text_principal
           numbered_library demo_metadata numbered_policy
           (PDict [("Effect", PStr "Allow");
                   ("Principal", PDict [("AWS", PList [
                      PStr "arn:aws:iam::222:user/x"; PInt 111122223333])])])
           (PDict [("AWS", PList [PStr "arn:aws:iam::222:user/x";
                                  PInt 111122223333])])
           "policy-text"
           [PDict [("Effect", PStr "Allow"); ("Principal", PStr "*")]]
           [PDict [("Effect", PStr "Deny")]]
           [PStr "arn:aws:iam::222:user/x"; PInt 111122223333]);
    reflexivity.
Defined.

Lemma extraction_ignores_statement_order_witness :
  shaped_policy reversed_policy = true
  /\ exists arns1 arns2,
      get_aws_account_arns_from_key_metadata two_policy_library demo_metadata
      = Ok arns1
      /\ get_aws_account_arns_from_key_metadata two_policy_library
           reversed_metadata = Ok arns2
      /\ arns1 ≡ₚ arns2.
Proof.
  split; [reflexivity|].
  apply (PrincipalAny.extraction_ignores_statement_order
           two_policy_library demo_metadata reversed_metadata
           demo_policy reversed_policy "policy-text" "reversed-text"
           eq_refl eq_refl eq_refl eq_refl eq_refl eq_refl).
  intros statement. cbn. tauto.
Defined.

(** ** Resolution of the key of the destination bucket *)

Section KeyResolution.

Context {W : Type}.
Variable svc : Services W.

Lemma first_kms_rule_none (rules : list pyval) :
  forallb shaped_rule rules = true ->
  forallb (fun rule => negb (kms_backed rule)) rules = true ->
  first_kms_rule rules = Ok None.
Proof.
  induction rules as [|rule rules IH]; [reflexivity|]. cbn [forallb].
  intros Hshape Hnone.
  apply andb_prop in Hshape as [Hrule Hshape].
  apply andb_prop in Hnone as [Hnot Hnone].
  specialize (IH Hshape Hnone).
  destruct rule as [| | | | |kvs]; try discriminate Hrule.
  unfold kms_backed, by_default_of in Hnot. cbn in Hrule |- *.
  destruct (Py.lookup "ApplyServerSideEncryptionByDefault" kvs)
    as [[| | | | |by_default]|]; try discriminate Hrule; cbn; [|exact IH].
  destruct (Py.lookup "SSEAlgorithm" by_default) as [algorithm|]; cbn.
  - apply negb_true_iff in Hnot. rewrite Hnot. exact IH.
  - exact IH.
Qed.

Lemma first_kms_rule_found (before after : list pyval) (rule : pyval)
  (by_default : list (string * pyval)) :
  forallb shaped_rule before = true ->
  forallb (fun rule => negb (kms_backed rule)) before = true ->
  by_default_of rule = Some (PDict by_default) ->
  Py.lookup "SSEAlgorithm" by_default = Some (PStr "aws:kms") ->
  first_kms_rule (before ++ rule :: after)
  = Ok (Some (match Py.lookup "KMSMasterKeyID" by_default with
              | Some key_id => key_id
              | None => PNone
              end)).
Proof.
  intros Hshape Hnone Hdefault Halgorithm.
  induction before as [|r before IH].
  - destruct rule as [| | | | |kvs]; try discriminate Hdefault.
    cbn in Hdefault |- *. rewrite Hdefault. cbn. rewrite Halgorithm. reflexivity.
  - cbn [forallb] in Hshape, Hnone.
    apply andb_prop in Hshape as [Hr Hshape].
    apply andb_prop in Hnone as [Hnot Hnone].
    specialize (IH Hshape Hnone).
    destruct r as [| | | | |kvs]; try discriminate Hr.
    unfold kms_backed, by_default_of in Hnot. cbn in Hr |- *.
    destruct (Py.lookup "ApplyServerSideEncryptionByDefault" kvs)
      as [[| | | | |d]|]; try discriminate Hr; cbn; [|exact IH].
    destruct (Py.lookup "SSEAlgorithm" d) as [algorithm|]; cbn.
    + apply negb_true_iff in Hnot. rewrite Hnot. exact IH.
    + exact IH.
Qed.

Lemma has_configuration (response config : pyval) :
  Py.getitem response "ServerSideEncryptionConfiguration" = Ok config ->
  Py.contains "ServerSideEncryptionConfiguration" response = Ok true.
Proof.
  destruct response as [| | | | |kvs]; try discriminate. cbn.
  destruct (Py.lookup "ServerSideEncryptionConfiguration" kvs); [reflexivity | discriminate].
Qed.

(** X6: when no rule of the encryption configuration of the bucket uses
    the key-management service, [get_kms_master_key] makes its one call
    and returns [None]. *)
Theorem no_kms_rule_gives_no_key
  (bucket_name : string) (response config : pyval) (rules : list pyval)
  (w w' : W) (log : list call)
  (Hcall : s3_get_bucket_encryption svc bucket_name w = (w', Ok response))
  (Hconfig : Py.getitem response "ServerSideEncryptionConfiguration" = Ok config)
  (Hrules : Py.getitem config "Rules" = Ok (PList rules))
  (Hshape : forallb shaped_rule rules = true)
  (Hnone : forallb (fun rule => negb (kms_backed rule)) rules = true) :
  get_kms_master_key svc bucket_name (w, log)
  = ((w', (log ++ [GetBucketEncryption bucket_name])%list), Ok PNone).
Proof.
  unfold get_kms_master_key. rewrite bind_invoke, Hcall.
  unfold lift, kms_master_key_of.
  rewrite (has_configuration _ _ Hconfig). cbn [rbind].
  rewrite Hconfig. cbn [rbind]. rewrite Hrules. cbn [rbind Py.iter].
  rewrite (first_kms_rule_none rules Hshape Hnone). reflexivity.
Qed.

(** X7: [get_kms_master_key] answers with the first rule whose default
    encryption uses the key-management service: it returns the
    KMSMasterKeyID of that rule, or [None] when that rule names no key,
    and does not look at the rules after it. *)
Theorem first_kms_rule_decides
  (bucket_name : string) (response config rule : pyval)
  (before after : list pyval) (by_default : list (string * pyval))
  (w w' : W) (log : list call)
  (Hcall : s3_get_bucket_encryption svc bucket_name w = (w', Ok response))
  (Hconfig : Py.getitem response "ServerSideEncryptionConfiguration" = Ok config)
  (Hrules : Py.getitem config "Rules" = Ok (PList (before ++ rule :: after)))
  (Hshape : forallb shaped_rule before = true)
  (Hnone : forallb (fun rule => negb (kms_backed rule)) before = true)
  (Hdefault : by_default_of rule = Some (PDict by_default))
  (Halgorithm : Py.lookup "SSEAlgorithm" by_default = Some (PStr "aws:kms")) :
  get_kms_master_key svc bucket_name (w, log)
  = ((w', (log ++ [GetBucketEncryption bucket_name])%list),
     Ok (match Py.lookup "KMSMasterKeyID" by_default with
         | Some key_id => key_id
         | None => PNone
         end)).
Proof.
  unfold get_kms_master_key. rewrite bind_invoke, Hcall.
  unfold lift, kms_master_key_of.
  rewrite (has_configuration _ _ Hconfig). cbn [rbind].
  rewrite Hconfig. cbn [rbind]. rewrite Hrules. cbn [rbind Py.iter].
  rewrite (first_kms_rule_found before after rule by_default
             Hshape Hnone Hdefault Halgorithm).
  reflexivity.
Qed.

End KeyResolution.

Lemma no_kms_rule_gives_no_key_witness :
  get_kms_master_key aes_services target_bucket (tt, [])
  = ((tt, [GetBucketEncryption target_bucket]), Ok PNone).
Proof.
  apply (no_kms_rule_gives_no_key aes_services target_bucket aes_encryption
           (PDict [("Rules", PList [
              PDict [("ApplyServerSideEncryptionByDefault",
                      PDict [("SSEAlgorithm", PStr "AES256")])]])])
           [PDict [("ApplyServerSideEncryptionByDefault",
                    PDict [("SSEAlgorithm", PStr "AES256")])]]
           tt tt []); reflexivity.
Defined.

Lemma first_kms_rule_decides_witness :
  get_kms_master_key (demo_services mixed_encryption (Ok tt)) target_bucket (tt, [])
  = ((tt, [GetBucketEncryption target_bucket]), Ok PNone).
Proof.
  apply (first_kms_rule_decides (demo_services mixed_encryption (Ok tt))
           target_bucket mixed_encryption
           (PDict [("Rules", PList mixed_rules)])
           (PDict [("ApplyServerSideEncryptionByDefault",
                    PDict [("SSEAlgorithm", PStr "aws:kms")])])
           [PDict [("BucketKeyEnabled", PBool true)];
            PDict [("ApplyServerSideEncryptionByDefault",
                    PDict [("SSEAlgorithm", PStr "AES256")])]]
           [PDict [("ApplyServerSideEncryptionByDefault",
                    PDict [("SSEAlgorithm", PStr "aws:kms");
                           ("KMSMasterKeyID", PStr "arn:aws:kms:eu-west-2:111:key/k")])]]
           [("SSEAlgorithm", PStr "aws:kms")] tt tt []); reflexivity.
Defined.

(** ** What a run of the handler does and does not do *)

Lemma extraction_sound (lib : Library) (key_metadata : pyval)
  (account_arns : list string) :
  get_aws_account_arns_from_key_metadata lib key_metadata = Ok account_arns ->
  NoDup account_arns
  /\ forall a, In a account_arns -> Str.endswith a ":root" = false.
Proof.
  unfold get_aws_account_arns_from_key_metadata, account_arns_of_policy.
  intros Hrun.
  destruct (Py.getitem key_metadata "Policy") as [[| | |policy_text| |]|];
    cbn [rbind] in Hrun; try discriminate Hrun.
  destruct (json_loads lib policy_text) as [key_policy|];
    cbn [rbind] in Hrun; [|discriminate Hrun].
  destruct (Py.getitem key_policy "Statement") as [field|];
    cbn [rbind] in Hrun; [|discriminate Hrun].
  destruct (Py.iter field) as [statements|];
    cbn [rbind] in Hrun; [|discriminate Hrun].
  destruct (add_statements statements ∅) as [s|] eqn:Hs;
    cbn [rbind] in Hrun; [|discriminate Hrun].
  injection Hrun as <-. split; [apply NoDup_elements|].
  intros a Hin. apply list_elem_of_In, elem_of_elements in Hin.
  apply (PrincipalAny.add_statements_ok statements ∅ s Hs a) in Hin
    as [Hin|[_ Hroot]]; [|exact Hroot].
  apply not_elem_of_empty in Hin. destruct Hin.
Qed.

Section Runs.

Context {W : Type}.
Variable lib : Library.
Variable svc : Services W.

Ltac run_step :=
  match goal with
  | |- context [bind (bind _ _) _ _] => rewrite bind_assoc
  | |- context [bind (lift ?r) _ _] =>
      rewrite (bind_lift r); destruct r eqn:?
  | |- context [bind (invoke ?c ?op) _ (?w, _)] =>
      rewrite (bind_invoke c op); destruct (op w) as [? [?|?]] eqn:?
  | |- context [if String.eqb ?a ?b then _ else _] =>
      destruct (String.eqb_spec a b)
  end.

Ltac run_all :=
  unfold lambda_handler, get_kms_master_key, get_kms_key_metadata,
    attach_bucket_policy;
  cbv zeta;
  repeat run_step;
  unfold ret.

(** X8: whatever the event and whatever the services answer, the calls of
    the handler are a beginning of the sequence get_object, put_object,
    get_bucket_encryption, get_key_policy, put_bucket_policy,
    start_crawler, each made at most once; the writes, the encryption
    query and the policy go to the fixed destination bucket, never to the
    bucket the event names. *)
Theorem calls_follow_the_plan (event : pyval) (w : W) :
  let log := snd (fst (lambda_handler lib svc event (w, []))) in
  (exists n, List.map kind_of log = List.firstn n plan)
  /\ forallb fixed_target log = true.
Proof.
  run_all; cbn;
    (split; [|reflexivity]);
    first [ exists 0%nat; reflexivity | exists 1%nat; reflexivity
          | exists 2%nat; reflexivity | exists 3%nat; reflexivity
          | exists 4%nat; reflexivity | exists 5%nat; reflexivity
          | exists 6%nat; reflexivity ].
Qed.

(** X9: the handler returns a response in two cases only: the 400
    response, after no call at all and with the world untouched, for a key
    whose extension is not xlsx; or the 200 response, after all six calls
    of the plan have been made and answered, naming the destination key of
    the stored object. *)
Theorem response_only_after_all_steps
  (event response : pyval) (w : W) (st' : W * list call)
  (Hrun : lambda_handler lib svc event (w, []) = (st', Ok response)) :
  exists source_key,
    event_field event "object" "key" = Ok (PStr source_key)
    /\ ((Str.lower (file_extension_of (file_name_of source_key)) <> "xlsx"
         /\ st' = (w, [])
         /\ response = response_400 (file_name_of source_key))
        \/ (Str.lower (file_extension_of (file_name_of source_key)) = "xlsx"
            /\ List.map kind_of (snd st') = plan
            /\ exists d body,
                parse_date (file_name_of source_key) = Ok d
                /\ In (PutObject target_bucket (target_key_for source_key d) body)
                      (snd st')
                /\ response = response_200 (file_name_of source_key)
                                (target_key_for source_key d))).
Proof.
  revert Hrun. run_all; intros [= <- <-];
    match goal with
    | H : as_text ?v = Ok ?s |- _ =>
        destruct v; try discriminate H; injection H as ->
    end;
    eexists; (split; [reflexivity|]).
  - right. split; [assumption|]. split; [reflexivity|].
    eexists. eexists. split; [eassumption|].
    split; [right; left; reflexivity | reflexivity].
  - left. auto.
Qed.

(** X10: every bucket policy the handler applies goes to the fixed
    destination bucket and is the serialised two-statement document for a
    list of accounts that has no duplicates and no identifier ending with
    :root. *)
Theorem applied_policy_names_extracted_accounts
  (event : pyval) (w : W) (bucket policy : string)
  (Hcall : In (PutBucketPolicy bucket policy)
              (snd (fst (lambda_handler lib svc event (w, []))))) :
  bucket = target_bucket
  /\ exists account_arns,
      policy = json_dumps lib (bucket_policy_doc target_bucket account_arns)
      /\ NoDup account_arns
      /\ forall a, In a account_arns -> Str.endswith a ":root" = false.
Proof.
  revert Hcall. run_all; cbn; intros Hcall;
    repeat (destruct Hcall as [Hcall|Hcall]; [try discriminate Hcall|]);
    try contradiction;
    injection Hcall as <- <-;
    (split; [reflexivity|]);
    match goal with
    | H : get_aws_account_arns_from_key_metadata lib _ = Ok ?l |- _ =>
        exists l; split; [reflexivity | exact (extraction_sound _ _ _ H)]
    end.
Qed.

(** X11: every object the handler stores goes to the fixed destination
    bucket, and its body is the CSV text of the table that the cleaning
    step made of the sheet read from the object the event names. *)
Theorem stored_body_is_the_cleaned_sheet
  (event : pyval) (w : W) (bucket key body : string)
  (Hcall : In (PutObject bucket key body)
              (snd (fst (lambda_handler lib svc event (w, []))))) :
  bucket = target_bucket
  /\ exists source_bucket source_key w1 excel_data excel_df table,
      event_field event "bucket" "name" = Ok source_bucket
      /\ event_field event "object" "key" = Ok (PStr source_key)
      /\ s3_get_object svc source_bucket source_key w = (w1, Ok excel_data)
      /\ read_excel lib excel_data = Ok excel_df
      /\ Frame.clean excel_df = Ok table
      /\ body = to_csv lib table.
Proof.
  revert Hcall. run_all; cbn; intros Hcall;
    repeat (destruct Hcall as [Hcall|Hcall]; [try discriminate Hcall|]);
    try contradiction;
    injection Hcall as <- <- <-;
    (split; [reflexivity|]);
    match goal with
    | H : as_text ?v = Ok ?s |- _ =>
        destruct v; try discriminate H; injection H as ->
    end;
    do 6 eexists; repeat (split; [eassumption || reflexivity|]); reflexivity.
Qed.

(** X12: when the bucket policy cannot be applied after the object has
    been stored and the accounts extracted, the exception of
    [put_bucket_policy] ends the invocation: the crawler is not started,
    and the stored object stays where it is. *)
Theorem policy_failure_is_surfaced
  (event source_bucket response key_arn key_metadata : pyval)
  (source_key : string) (d : Strptime.date) (table : DataFrame)
  (aws_account_arns : list string) (w w2 w3 w4 w5 : W) (e : exn)
  (Hup : upload_succeeds lib svc event w source_bucket source_key d table w2)
  (Henc : s3_get_bucket_encryption svc target_bucket w2 = (w3, Ok response))
  (Hkey : kms_master_key_of response = Ok key_arn)
  (Hkms : kms_get_key_policy svc key_arn "default" w3 = (w4, Ok key_metadata))
  (Harns : get_aws_account_arns_from_key_metadata lib key_metadata
           = Ok aws_account_arns)
  (Hput : s3_put_bucket_policy svc target_bucket
            (json_dumps lib (bucket_policy_doc target_bucket aws_account_arns)) w4
          = (w5, Raise e)) :
  lambda_handler lib svc event (w, []) =
  ((w5, (upload_calls lib source_bucket source_key d table
         ++ policy_calls lib key_arn aws_account_arns)%list),
   Raise e).
Proof.
  rewrite (run_after_upload _ _ _ _ _ _ _ _ _ Hup).
  unfold get_kms_master_key, get_kms_key_metadata, attach_bucket_policy.
  cbv zeta.
  rewrite bind_assoc, bind_invoke, Henc, Hkey, bind_lift_ok.
  rewrite bind_invoke, Hkms, Harns, bind_lift_ok.
  rewrite bind_invoke, Hput. reflexivity.
Qed.

End Runs.

Lemma response_only_after_all_steps_witness :
  lambda_handler demo_library kms_services
    (demo_event "report_20240315_v1.xlsx") (tt, [])
  = ((tt, [GetObject (PStr "uploads") "report_20240315_v1.xlsx";
           PutObject target_bucket
             "year=2024/month=03/day=15/report_20240315_v1.csv" "csv";
           GetBucketEncryption target_bucket;
           GetKeyPolicy (PStr "arn:aws:kms:eu-west-2:111:key/k") "default";
           PutBucketPolicy target_bucket "policy-json";
           StartCrawler "s3_input_crawler"]),
      Ok (response_200 "report_20240315_v1.xlsx"
            "year=2024/month=03/day=15/report_20240315_v1.csv"))
  /\ exists source_key,
      event_field (demo_event "report_20240315_v1.xlsx") "object" "key"
      = Ok (PStr source_key)
      /\ Str.lower (file_extension_of (file_name_of source_key)) = "xlsx".
Proof.
  assert (Hrun : lambda_handler demo_library kms_services
                   (demo_event "report_20240315_v1.xlsx") (tt, [])
                 = ((tt, [GetObject (PStr "uploads") "report_20240315_v1.xlsx";
                          PutObject target_bucket
                            "year=2024/month=03/day=15/report_20240315_v1.csv" "csv";
                          GetBucketEncryption target_bucket;
                          GetKeyPolicy (PStr "arn:aws:kms:eu-west-2:111:key/k") "default";
                          PutBucketPolicy target_bucket "policy-json";
                          StartCrawler "s3_input_crawler"]),
                    Ok (response_200 "report_20240315_v1.xlsx"
                          "year=2024/month=03/day=15/report_20240315_v1.csv")))
    by reflexivity.
  split; [exact Hrun|].
  destruct (response_only_after_all_steps demo_library kms_services _ _ _ _ Hrun)
    as (source_key & Hkey & [(Hext & Hst & _)|(Hext & _)]).
  - discriminate Hst.
  - exists source_key. split; assumption.
Defined.

Lemma applied_policy_names_extracted_accounts_witness :
  In (PutBucketPolicy target_bucket "policy-json")
     (snd (fst (lambda_handler demo_library kms_services
                  (demo_event "report_20240315_v1.xlsx") (tt, []))))
  /\ exists account_arns,
      "policy-json"
      = json_dumps demo_library (bucket_policy_doc target_bucket account_arns)
      /\ NoDup account_arns
      /\ forall a, In a account_arns -> Str.endswith a ":root" = false.
Proof.
  assert (Hcall : In (PutBucketPolicy target_bucket "policy-json")
                     (snd (fst (lambda_handler demo_library kms_services
                                  (demo_event "report_20240315_v1.xlsx") (tt, [])))))
    by (vm_compute; do 4 right; left; reflexivity).
  split; [exact Hcall|].
  exact (proj2 (applied_policy_names_extracted_accounts demo_library kms_services
                  (demo_event "report_20240315_v1.xlsx") tt
                  target_bucket "policy-json" Hcall)).
Defined.

Lemma stored_body_is_the_cleaned_sheet_witness :
  In (PutObject target_bucket
        "year=2024/month=03/day=15/report_20240315_v1.csv" "csv")
     (snd (fst (lambda_handler demo_library kms_services
                  (demo_event "report_20240315_v1.xlsx") (tt, []))))
  /\ exists source_bucket source_key w1 excel_data excel_df table,
      event_field (demo_event "report_20240315_v1.xlsx") "bucket" "name"
      = Ok source_bucket
      /\ event_field (demo_event "report_20240315_v1.xlsx") "object" "key"
         = Ok (PStr source_key)
      /\ s3_get_object kms_services source_bucket source_key tt
         = (w1, Ok excel_data)
      /\ read_excel demo_library excel_data = Ok excel_df
      /\ Frame.clean excel_df = Ok table
      /\ "csv" = to_csv demo_library table.
Proof.
  assert (Hcall : In (PutObject target_bucket
                        "year=2024/month=03/day=15/report_20240315_v1.csv" "csv")
                     (snd (fst (lambda_handler demo_library kms_services
                                  (demo_event "report_20240315_v1.xlsx") (tt, [])))))
    by (vm_compute; right; left; reflexivity).
  split; [exact Hcall|].
  exact (proj2 (stored_body_is_the_cleaned_sheet demo_library kms_services
                  (demo_event "report_20240315_v1.xlsx") tt target_bucket
                  "year=2024/month=03/day=15/report_20240315_v1.csv" "csv"
                  Hcall)).
Defined.

Lemma demo_upload_reaches_policy (svc : Services unit) :
  s3_get_object svc (PStr "uploads") "report_20240315_v1.xlsx" tt
  = (tt, Ok "xlsx-bytes") ->
  s3_put_object svc target_bucket
    "year=2024/month=03/day=15/report_20240315_v1.csv" "csv" tt = (tt, Ok tt) ->
  upload_succeeds demo_library svc (demo_event "report_20240315_v1.xlsx") tt
    (PStr "uploads") "report_20240315_v1.xlsx" (Strptime.mk_date 2024 3 15)
    demo_table tt.
Proof.
  intros Hget Hput. unfold upload_succeeds. repeat (split; [reflexivity|]).
  exists tt, "xlsx-bytes", demo_frame. repeat split; assumption || reflexivity.
Defined.

Lemma policy_failure_is_surfaced_witness :
  lambda_handler demo_library policy_denied_services
    (demo_event "report_20240315_v1.xlsx") (tt, [])
  = ((tt, [GetObject (PStr "uploads") "report_20240315_v1.xlsx";
           PutObject target_bucket
             "year=2024/month=03/day=15/report_20240315_v1.csv" "csv";
           GetBucketEncryption target_bucket;
           GetKeyPolicy (PStr "arn:aws:kms:eu-west-2:111:key/k") "default";
           PutBucketPolicy target_bucket "policy-json"]),
     Raise (ServiceError "AccessDenied")).
Proof.
  exact (policy_failure_is_surfaced demo_library policy_denied_services
           (demo_event "report_20240315_v1.xlsx") (PStr "uploads")
           kms_encryption (PStr "arn:aws:kms:eu-west-2:111:key/k") demo_metadata
           "report_20240315_v1.xlsx" (Strptime.mk_date 2024 3 15) demo_table
           ["arn:aws:iam::333:role/r"; "arn:aws:iam::222:user/x"]
           tt tt tt tt tt (ServiceError "AccessDenied")
           (demo_upload_reaches_policy policy_denied_services eq_refl eq_refl)
           eq_refl eq_refl eq_refl eq_refl eq_refl).
Defined.

(** ** Segments of a text *)

Module TextFacts.

Import Text.

Lemma append_cons (x : ascii) (a b : string) :
  String x a +:+ b = String x (a +:+ b).
Proof. reflexivity. Qed.

Lemma append_empty (b : string) : EmptyString +:+ b = b.
Proof. reflexivity. Qed.

Lemma append_assoc (a b c : string) : (a +:+ b) +:+ c = a +:+ (b +:+ c).
Proof.
  induction a as [|x a IH]; [reflexivity|].
  rewrite !append_cons, IH. reflexivity.
Qed.

Lemma length_append (a b : string) :
  String.length (a +:+ b) = (String.length a + String.length b)%nat.
Proof.
  induction a as [|x a IH]; [reflexivity|].
  rewrite append_cons. cbn. rewrite IH. reflexivity.
Qed.

Lemma append_cancel_r (a b t : string) : a +:+ t = b +:+ t -> a = b.
Proof.
  revert b. induction a as [|x a IH]; intros [|y b] H.
  - reflexivity.
  - apply (f_equal String.length) in H.
    rewrite ?append_cons, ?append_empty in H.
    cbn in H. rewrite length_append in H. lia.
  - apply (f_equal String.length) in H.
    rewrite ?append_cons, ?append_empty in H.
    cbn in H. rewrite length_append in H. lia.
  - rewrite !append_cons in H. injection H as -> H. rewrite (IH b H). reflexivity.
Qed.

Lemma has_append (c : ascii) (a b : string) :
  has c (a +:+ b) = has c a || has c b.
Proof.
  induction a as [|x a IH]; [reflexivity|].
  rewrite append_cons. cbn. rewrite IH.
  destruct (Ascii.eqb x c); reflexivity.
Qed.

Lemma split_nonempty (sep : ascii) (s : string) : Str.split sep s <> [].
Proof.
  destruct s as [|c s]; cbn; [discriminate|].
  destruct (Ascii.eqb c sep); [discriminate|].
  destruct (Str.split sep s); discriminate.
Qed.

(** A text without the separator is its only segment. *)
Lemma split_none (sep : ascii) (s : string) :
  has sep s = false -> Str.split sep s = [s].
Proof.
  induction s as [|c s IH]; [reflexivity|]. cbn. intros H.
  apply orb_false_iff in H as [Hc Hs]. rewrite Hc, (IH Hs). reflexivity.
Qed.

(** The first separator ends the first segment. *)
Lemma split_append_sep (sep : ascii) (a b : string) :
  has sep a = false ->
  Str.split sep (a +:+ String sep b) = a :: Str.split sep b.
Proof.
  induction a as [|c a IH].
  - intros _. rewrite append_empty. cbn. rewrite Ascii.eqb_refl. reflexivity.
  - intros H. cbn in H. apply orb_false_iff in H as [Hc Ha].
    rewrite append_cons. cbn. rewrite Hc, (IH Ha). reflexivity.
Qed.

(** No segment holds the separator. *)
Lemma split_parts_no_sep (sep : ascii) (s x : string) :
  In x (Str.split sep s) -> has sep x = false.
Proof.
  revert x. induction s as [|c s IH]; intros x; cbn.
  - intros [<-|[]]. reflexivity.
  - destruct (Ascii.eqb c sep) eqn:Hc.
    + intros [<-|Hin]; [reflexivity | apply IH; exact Hin].
    + destruct (Str.split sep s) as [|h t] eqn:Hs.
      * intros [<-|[]]. cbn. rewrite Hc. reflexivity.
      * intros [<-|Hin].
        -- cbn. rewrite Hc. apply IH. left. reflexivity.
        -- apply IH. right. exact Hin.
Qed.

(** A segment holds only characters of the text. *)
Lemma split_parts_chars (sep c : ascii) (s x : string) :
  In x (Str.split sep s) -> has c x = true -> has c s = true.
Proof.
  revert x. induction s as [|y s IH]; intros x; cbn.
  - intros [<-|[]] H. exact H.
  - destruct (Ascii.eqb y sep) eqn:Hy.
    + intros [<-|Hin] H; [discriminate H|].
      rewrite (IH x Hin H). apply orb_true_r.
    + destruct (Str.split sep s) as [|h t] eqn:Hs.
      * intros [<-|[]] H. cbn in H. rewrite orb_false_r in H. rewrite H. reflexivity.
      * intros [<-|Hin] H.
        -- cbn in H. apply orb_true_iff in H as [H|H]; [rewrite H; reflexivity|].
           rewrite (IH h (or_introl eq_refl) H). apply orb_true_r.
        -- rewrite (IH x (or_intror Hin) H). apply orb_true_r.
Qed.

Lemma last_In {A} (l : list A) (d : A) : l <> [] -> In (List.last l d) l.
Proof.
  induction l as [|x l IH]; [congruence|]. intros _.
  destruct l as [|y l]; [left; reflexivity|].
  right. apply IH. discriminate.
Qed.

Lemma hd_In {A} (l : list A) (d : A) : l <> [] -> In (List.hd d l) l.
Proof. destruct l; [congruence | left; reflexivity]. Qed.

Lemma join_cons_char (sep c : ascii) (h : string) (t : list string) :
  join sep (String c h :: t) = String c (join sep (h :: t)).
Proof. destruct t; reflexivity. Qed.

(** Joining the segments with the separator gives the text back. *)
Lemma join_split (sep : ascii) (s : string) : join sep (Str.split sep s) = s.
Proof.
  induction s as [|c s IH]; [reflexivity|]. cbn.
  destruct (Ascii.eqb_spec c sep) as [->|Hne].
  - pose proof (split_nonempty sep s) as Hn.
    destruct (Str.split sep s) as [|h t]; [congruence|].
    cbn [join] in IH |- *. rewrite append_empty, IH. reflexivity.
  - destruct (Str.split sep s) as [|h t].
    + cbn in IH. subst s. reflexivity.
    + rewrite join_cons_char, IH. reflexivity.
Qed.

Lemma last_char_append (a b : string) :
  last_char (a +:+ b)
  = match last_char b with Some x => Some x | None => last_char a end.
Proof.
  induction a as [|c a IH].
  - rewrite append_empty. destruct (last_char b); reflexivity.
  - rewrite append_cons. cbn. rewrite IH. destruct (last_char b); [reflexivity|].
    destruct (last_char a); reflexivity.
Qed.

(** The last segment is an end of the text. *)
Lemma last_segment_suffix (sep : ascii) (s : string) :
  exists pre, s = pre +:+ List.last (Str.split sep s) EmptyString.
Proof.
  induction s as [|c s (pre & IH)]; [exists EmptyString; reflexivity|]. cbn.
  pose proof (split_nonempty sep s) as Hn.
  destruct (Ascii.eqb c sep).
  - destruct (Str.split sep s) as [|h t] eqn:Hs; [congruence|].
    exists (String c pre). cbn [List.last] in *. rewrite append_cons, <- IH.
    reflexivity.
  - destruct (Str.split sep s) as [|h t] eqn:Hs; [congruence|].
    destruct t as [|h' t].
    + cbn in IH |- *. exists EmptyString. rewrite append_empty.
      assert (Hh : s = h).
      { pose proof (join_split sep s) as Hj. rewrite Hs in Hj. cbn in Hj.
        congruence. }
      rewrite Hh. reflexivity.
    + exists (String c pre). cbn [List.last] in *. rewrite append_cons, <- IH.
      reflexivity.
Qed.

Lemma last_char_lower (s : string) :
  last_char (Str.lower s) = option_map Str.lower_char (last_char s).
Proof.
  induction s as [|c s IH]; [reflexivity|].
  change (Str.lower (String c s)) with (String (Str.lower_char c) (Str.lower s)).
  cbn. rewrite IH. destruct (last_char s); reflexivity.
Qed.

End TextFacts.

(** ** The layout of the destination key *)

Module KeyFacts.

Import Text TextFacts.

Lemma append_cancel_l (a b c : string) : a +:+ b = a +:+ c -> b = c.
Proof.
  induction a as [|x a IH]; [exact (fun H => H)|].
  rewrite !append_cons. intros [= H]. exact (IH H).
Qed.

Lemma uint_text_no_slash (d : Decimal.uint) :
  has "/" (NilEmpty.string_of_uint d) = false.
Proof. induction d; cbn; assumption || reflexivity. Qed.

Lemma of_int_no_slash (n : Z) : has "/" (Str.of_int n) = false.
Proof.
  unfold Str.of_int, NilZero.string_of_int, NilZero.string_of_uint.
  destruct (Z.to_int n) as [d|d]; destruct d; cbn;
    try reflexivity; apply uint_text_no_slash.
Qed.

Lemma format_02d_no_slash (n : Z) : has "/" (Str.format_02d n) = false.
Proof.
  unfold Str.format_02d.
  destruct (Nat.ltb (String.length (Str.of_int n)) 2).
  - rewrite has_append, of_int_no_slash. reflexivity.
  - apply of_int_no_slash.
Qed.

Lemma to_int_nonnil (n : Z) :
  Z.to_int n <> Decimal.Pos Decimal.Nil /\ Z.to_int n <> Decimal.Neg Decimal.Nil.
Proof.
  destruct n as [|p|p]; cbn; split; try discriminate;
    intros [= H]; exact (DecimalPos.Unsigned.to_uint_nonnil p H).
Qed.

(** The decimal writing tells the integer. *)
Lemma of_int_inj (a b : Z) : Str.of_int a = Str.of_int b -> a = b.
Proof.
  unfold Str.of_int. intros H.
  apply (f_equal NilZero.int_of_string) in H.
  destruct (to_int_nonnil a) as [Ha1 Ha2]. destruct (to_int_nonnil b) as [Hb1 Hb2].
  rewrite !NilZero.isi in H by assumption.
  injection H as H. apply (f_equal Z.of_int) in H.
  rewrite !DecimalZ.of_to in H. exact H.
Qed.

Lemma two_digits_tell (s : string) (m n : Z) :
  two_digits s m = true -> two_digits s n = true -> m = n.
Proof.
  unfold two_digits. destruct s as [|a [|b [|c s]]]; try discriminate.
  rewrite !andb_true_iff, !Z.eqb_eq. intros (_ & ->) (_ & ->). reflexivity.
Qed.

Lemma file_name_no_slash (source_key : string) :
  has "/" (file_name_of source_key) = false.
Proof.
  apply (split_parts_no_sep "/" source_key).
  apply last_In, split_nonempty.
Qed.

Lemma file_prefix_no_slash (source_key : string) :
  has "/" (file_prefix_of (file_name_of source_key)) = false.
Proof.
  destruct (has "/" (file_prefix_of (file_name_of source_key))) eqn:H;
    [|reflexivity].
  pose proof (file_name_no_slash source_key) as Hname.
  rewrite (split_parts_chars "." "/" (file_name_of source_key) _
             (hd_In _ _ (split_nonempty _ _)) H) in Hname.
  discriminate Hname.
Qed.

Lemma key_segments (y m d : Z) (file_prefix : string) :
  has "/" file_prefix = false ->
  Str.split "/" (target_key_of y m d file_prefix)
  = ["year=" +:+ Str.of_int y; "month=" +:+ Str.format_02d m;
     "day=" +:+ Str.format_02d d; file_prefix +:+ ".csv"].
Proof.
  intros Hprefix. unfold target_key_of.
  replace ("year=" +:+ Str.of_int y +:+ "/month=" +:+ Str.format_02d m
           +:+ "/day=" +:+ Str.format_02d d +:+ "/" +:+ file_prefix +:+ ".csv")
    with (("year=" +:+ Str.of_int y)
          +:+ String "/" (("month=" +:+ Str.format_02d m)
          +:+ String "/" (("day=" +:+ Str.format_02d d)
          +:+ String "/" (file_prefix +:+ ".csv"))))
    by (rewrite !append_assoc; reflexivity).
  rewrite split_append_sep by (rewrite has_append, of_int_no_slash; reflexivity).
  rewrite split_append_sep by (rewrite has_append, format_02d_no_slash; reflexivity).
  rewrite split_append_sep by (rewrite has_append, format_02d_no_slash; reflexivity).
  rewrite split_none by (rewrite has_append, Hprefix; reflexivity).
  reflexivity.
Qed.

(** X13: split on the slash, the destination key of any upload has
    exactly four segments: year=Y, month=MM, day=DD and the file prefix
    followed by .csv; no slash of the uploaded object's key and no
    character of its name adds a level to the layout. *)
Theorem destination_key_has_four_segments
  (source_key : string) (d : Strptime.date) :
  Str.split "/" (target_key_for source_key d)
  = ["year=" +:+ Str.of_int (Strptime.year d);
     "month=" +:+ Str.format_02d (Strptime.month d);
     "day=" +:+ Str.format_02d (Strptime.day d);
     file_prefix_of (file_name_of source_key) +:+ ".csv"].
Proof.
  unfold target_key_for. apply key_segments. apply file_prefix_no_slash.
Qed.

(** X14: the destination key tells the partition: two uploads whose file
    names give a date and whose destination keys are equal have the same
    year, month and day and the same file prefix. *)
Theorem destination_key_tells_the_partition
  (key1 key2 : string) (d1 d2 : Strptime.date)
  (Hdate1 : parse_date (file_name_of key1) = Ok d1)
  (Hdate2 : parse_date (file_name_of key2) = Ok d2)
  (Hsame : target_key_for key1 d1 = target_key_for key2 d2) :
  d1 = d2
  /\ file_prefix_of (file_name_of key1) = file_prefix_of (file_name_of key2).
Proof.
  apply (f_equal (Str.split "/")) in Hsame. unfold target_key_for in Hsame.
  rewrite !key_segments in Hsame by apply file_prefix_no_slash.
  injection Hsame as Hy Hm Hd Hp.
  apply append_cancel_l, of_int_inj in Hy.
  apply append_cancel_l in Hm, Hd. apply append_cancel_r in Hp.
  assert (Hbounds : forall file_name d, parse_date file_name = Ok d ->
            0 <= Strptime.month d < 100 /\ 0 <= Strptime.day d < 100).
  { intros file_name d H. unfold parse_date in H.
    destruct (List.nth_error (Str.split "_" file_name) 1); [|discriminate].
    apply strptime_valid, valid_date_bounds in H. lia. }
  destruct (Hbounds _ _ Hdate1) as [Hm1 Hd1].
  destruct (Hbounds _ _ Hdate2) as [Hm2 Hd2].
  pose proof (format_02d_two_digits _ Hm1) as Tm1.
  pose proof (format_02d_two_digits _ Hm2) as Tm2.
  pose proof (format_02d_two_digits _ Hd1) as Td1.
  pose proof (format_02d_two_digits _ Hd2) as Td2.
  rewrite Hm in Tm1. rewrite Hd in Td1.
  pose proof (two_digits_tell _ _ _ Tm1 Tm2) as Hmonth.
  pose proof (two_digits_tell _ _ _ Td1 Td2) as Hday.
  split; [|exact Hp].
  destruct d1, d2. cbn in *. congruence.
Qed.

End KeyFacts.

Lemma destination_key_tells_the_partition_witness :
  target_key_for "in/report_20240315_v1.xlsx" (Strptime.mk_date 2024 3 15)
  = target_key_for "old/report_20240315_v1.XLSX" (Strptime.mk_date 2024 3 15)
  /\ file_prefix_of (file_name_of "in/report_20240315_v1.xlsx")
     = file_prefix_of (file_name_of "old/report_20240315_v1.XLSX").
Proof.
  split; [reflexivity|].
  exact (proj2 (KeyFacts.destination_key_tells_the_partition
                  "in/report_20240315_v1.xlsx" "old/report_20240315_v1.XLSX"
                  (Strptime.mk_date 2024 3 15) (Strptime.mk_date 2024 3 15)
                  eq_refl eq_refl eq_refl)).
Defined.

(** ** File names and their date token *)

Module NameFacts.

Import Strptime Token Text TextFacts.

Ltac ranges :=
  repeat match goal with
         | H : between _ _ _ = true |- _ => apply TokenFacts.between_true in H
         | H : between _ _ _ = false |- _ => apply TokenFacts.between_false in H
         | H : Str.is_digit _ = true |- _ =>
             apply (proj1 (TokenFacts.between_true 48 57 _)) in H
         | H : (_ && _)%bool = true |- _ => apply andb_prop in H as [? ?]
         | H : (_ || _)%bool = true |- _ => apply orb_prop in H as [H|H]
         | H : (_ && _)%bool = false |- _ => apply andb_false_iff in H as [H|H]
         | H : true = false |- _ => discriminate H
         | H : false = true |- _ => discriminate H
         end.

Lemma is_digit_between (c : ascii) : Str.is_digit c = between 48 57 c.
Proof. reflexivity. Qed.

(** A text that reads as a day ends with a digit. *)
Lemma day_text_ends_with_digit (t : string) (d : Z) :
  day_text t = Some d ->
  exists c, last_char t = Some c /\ Str.is_digit c = true.
Proof.
  destruct t as [|a [|b [|c r]]]; cbn; try discriminate.
  - destruct (in_1_9 a) eqn:Ha; [|discriminate]. intros _.
    exists a. split; [reflexivity|]. rewrite is_digit_between.
    unfold in_1_9 in Ha. apply TokenFacts.between_true.
    apply TokenFacts.between_true in Ha. lia.
  - intros H. exists b. split; [reflexivity|].
    destruct ((is3 a && in_0_1 b) || (in_1_2 a && Str.is_digit b)
              || (is0 a && in_1_9 b)) eqn:E1.
    + rewrite is_digit_between in *.
      unfold is3, in_0_1, in_1_2, is0, in_1_9 in E1.
      apply TokenFacts.between_true. ranges; lia.
    + destruct (is_space a && in_1_9 b) eqn:E2; [|discriminate H].
      rewrite is_digit_between. unfold is_space, in_1_9 in E2.
      apply TokenFacts.between_true. ranges; lia.
Qed.

Lemma last_char_drop (n : nat) (s : string) (c : ascii) :
  last_char (drop n s) = Some c -> last_char s = Some c.
Proof.
  revert s. induction n as [|n IH]; intros [|x s]; cbn; try (intros H; exact H).
  intros H. rewrite (IH s H). reflexivity.
Qed.

(** A token that is read as a date ends with a digit. *)
Lemma token_ends_with_digit (s : string) (d : date) :
  strptime_Ymd s = Ok d ->
  exists c, last_char s = Some c /\ Str.is_digit c = true.
Proof.
  rewrite TokenFacts.strptime_first_reading. unfold readings.
  destruct (year_match s) as [[y rest]|] eqn:Hy; [|discriminate].
  assert (Hrest : forall c, last_char rest = Some c -> last_char s = Some c).
  { intros c Hc. unfold year_match in Hy.
    destruct s as [|a [|b [|c' [|d' r]]]]; try discriminate Hy.
    destruct (Str.is_digit a && Str.is_digit b && Str.is_digit c'
              && Str.is_digit d'); [|discriminate Hy].
    injection Hy as _ <-. cbn. rewrite Hc. reflexivity. }
  intros Hans.
  assert (Hsome : exists n dd, day_text (drop n rest) = Some dd).
  { cbn [flat_map] in Hans.
    destruct (day_text (drop 2 rest)) as [dd|] eqn:H2; [exists 2%nat, dd; exact H2|].
    destruct (day_text (drop 1 rest)) as [dd|] eqn:H1; [exists 1%nat, dd; exact H1|].
    destruct (month_text (take 2 rest)); destruct (month_text (take 1 rest));
      discriminate Hans. }
  destruct Hsome as (n & dd & Hday).
  destruct (day_text_ends_with_digit _ _ Hday) as (c & Hc & Hdigit).
  exists c. split; [|exact Hdigit].
  apply Hrest. apply (last_char_drop n). exact Hc.
Qed.

Lemma strptime_raises_value_error (s : string) (e : exn) :
  strptime_Ymd s = Raise e -> e = ValueError.
Proof.
  rewrite TokenFacts.strptime_first_reading.
  destruct (readings s); cbn; [intros [= <-]; reflexivity | discriminate].
Qed.

Lemma digit_stays_lower (c : ascii) :
  Str.is_digit c = true -> Str.lower_char c = c.
Proof.
  rewrite is_digit_between. intros H. apply TokenFacts.between_true in H.
  unfold Str.lower_char.
  destruct (Nat.leb 65 (nat_of_ascii c) && Nat.leb (nat_of_ascii c) 90) eqn:E;
    [|reflexivity].
  apply andb_prop in E as [E1 E2]. apply Nat.leb_le in E1. lia.
Qed.

(** X15: a file name with the extension xlsx and exactly one underscore,
    such as sales_20240315.xlsx, gives no partition: its second segment
    runs to the end of the name and takes the extension with it, so the
    date parser raises [ValueError]. *)
Theorem single_underscore_name_is_rejected
  (file_name first second : string)
  (Hsplit : Str.split "_" file_name = [first; second])
  (Hext : Str.lower (file_extension_of file_name) = "xlsx") :
  parse_date file_name = Raise ValueError.
Proof.
  unfold parse_date. rewrite Hsplit. cbn [List.nth_error].
  destruct (strptime_Ymd second) as [d|e] eqn:Hparse.
  2:{ rewrite (strptime_raises_value_error _ _ Hparse). reflexivity. }
  exfalso.
  destruct (token_ends_with_digit _ _ Hparse) as (c & Hc & Hdigit).
  assert (Hname : last_char file_name = Some c).
  { rewrite <- (join_split "_" file_name), Hsplit. cbn [join].
    rewrite last_char_append. cbn. rewrite Hc. reflexivity. }
  destruct (last_segment_suffix "." file_name) as (pre & Hsuffix).
  fold (file_extension_of file_name) in Hsuffix.
  pose proof (f_equal last_char Hext) as Hlast.
  rewrite last_char_lower in Hlast.
  rewrite Hsuffix, last_char_append in Hname.
  destruct (last_char (file_extension_of file_name)) as [x|]; [|discriminate Hlast].
  injection Hname as ->. cbn in Hlast. injection Hlast as Hx.
  rewrite (digit_stays_lower c Hdigit) in Hx. subst c. discriminate Hdigit.
Qed.

(** X16: when the second segment between underscores is an 8-digit
    calendar date YYYYMMDD, the partition is read position by position:
    the year from the first four digits, the month from the next two, the
    day from the last two. *)
Theorem yyyymmdd_token_is_read_by_position
  (file_name date_str : string)
  (Hsegment : List.nth_error (Str.split "_" file_name) 1 = Some date_str)
  (Htoken : is_yyyymmdd date_str = true) :
  parse_date file_name
  = Ok (mk_date (number_of (take 4 date_str))
                (number_of (take 2 (drop 4 date_str)))
                (number_of (drop 6 date_str))).
Proof.
  unfold parse_date. rewrite Hsegment.
  destruct (TokenFacts.yyyymmdd_first_reading date_str Htoken)
    as (y & m & d & -> & Hy & Hm & Hd).
  destruct date_str as [|a [|b [|c [|d' [|e [|f [|g [|h [|x r]]]]]]]]];
    try discriminate Htoken.
  unfold is_yyyymmdd in Htoken. cbn [forallb] in Htoken.
  apply andb_prop in Htoken as [Hdigits _].
  repeat (apply andb_prop in Hdigits as [? Hdigits]).
  unfold year_match in Hy. cbn [take drop] in *.
  destruct (Str.is_digit a && Str.is_digit b && Str.is_digit c && Str.is_digit d');
    [|discriminate Hy].
  injection Hy as <-.
  assert (Hmonth : m = two e f).
  { cbn in Hm. destruct ((is1 e && in_0_2 f) || (is0 e && in_1_9 f));
      [injection Hm as <-; reflexivity | discriminate Hm]. }
  assert (Hday : d = two g h).
  { cbn in Hd.
    destruct ((is3 g && in_0_1 h) || (in_1_2 g && Str.is_digit h)
              || (is0 g && in_1_9 h)); [injection Hd as <-; reflexivity|].
    destruct (is_space g && in_1_9 h) eqn:E; [|discriminate Hd]. exfalso.
    match goal with H : Str.is_digit g = true |- _ =>
      rewrite is_digit_between in H; unfold is_space in E; ranges; lia end. }
  subst m d. unfold number_of, two. cbn [number_from take drop].
  apply f_equal. apply f_equal3; lia.
Qed.

(** X17: a token of seven characters whose fifth and sixth make a month
    10..12 is read with that two-digit month and a one-digit day, also
    when a one-digit month and a two-digit day would make a date: 2024111
    is the first of November. *)
Theorem two_digit_month_is_read_first
  (date_str : string) (y : Z) (a b c : ascii)
  (Hyear : year_match date_str
           = Some (y, String a (String b (String c EmptyString))))
  (Hpositive : 1 <= y)
  (Ha : is1 a = true) (Hb : in_0_2 b = true) (Hc : in_1_9 c = true) :
  strptime_Ymd date_str = Ok (mk_date y (two a b) (Str.digit_val c)).
Proof.
  rewrite TokenFacts.strptime_first_reading. unfold readings.
  rewrite Hyear. cbn [flat_map take drop month_text day_text].
  rewrite Ha, Hb, Hc. cbn [andb orb].
  assert (Hvalid : valid_date y (two a b) (Str.digit_val c) = true).
  { assert (Hy : y <= 9999).
    { unfold year_match in Hyear.
      destruct date_str as [|y1 [|y2 [|y3 [|y4 r]]]]; try discriminate Hyear.
      destruct (Str.is_digit y1 && Str.is_digit y2 && Str.is_digit y3
                && Str.is_digit y4) eqn:E; [|discriminate Hyear].
      injection Hyear as <- _. rewrite !is_digit_between in E.
      unfold Str.digit_val. ranges. lia. }
    pose proof (TokenFacts.month_pair_value a b) as Hm.
    rewrite Ha, Hb in Hm. specialize (Hm eq_refl).
    pose proof (TokenFacts.in_1_9_value c Hc) as Hd.
    unfold valid_date, days_in_month.
    repeat (apply andb_true_intro; split); try (apply Z.leb_le; lia).
    apply Z.leb_le.
    destruct (two a b =? 2); [destruct (is_leap y); lia|].
    destruct ((two a b =? 4) || (two a b =? 6) || (two a b =? 9)
              || (two a b =? 11))%bool; lia. }
  rewrite Hvalid. reflexivity.
Qed.

End NameFacts.

Lemma single_underscore_name_is_rejected_witness :
  Str.split "_" "sales_20240315.xlsx" = ["sales"; "20240315.xlsx"]
  /\ parse_date "sales_20240315.xlsx" = Raise ValueError.
Proof.
  split; [reflexivity|].
  exact (NameFacts.single_underscore_name_is_rejected
           "sales_20240315.xlsx" "sales" "20240315.xlsx" eq_refl eq_refl).
Defined.

Lemma yyyymmdd_token_is_read_by_position_witness :
  Token.is_yyyymmdd "20230901" = true
  /\ parse_date "sales_20230901_q.xlsx" = Ok (Strptime.mk_date 2023 9 1).
Proof.
  split; [reflexivity|].
  exact (NameFacts.yyyymmdd_token_is_read_by_position
           "sales_20230901_q.xlsx" "20230901" eq_refl eq_refl).
Defined.

Lemma two_digit_month_is_read_first_witness :
  Strptime.strptime_Ymd "2024111" = Ok (Strptime.mk_date 2024 11 1).
Proof.
  exact (NameFacts.two_digit_month_is_read_first "2024111" 2024 "1" "1" "1"
           eq_refl ltac:(lia) eq_refl eq_refl eq_refl).
Defined.
